(** * matrix_io: a sparse, row-oriented matrix file format

    A shallow embedding of [matrix_io.py] and the verification of its
    row encoding, default elision and writer/loader protocol.

    Python objects are modelled as follows.
    - A cell value is a text ([str]) or a 64-bit float ([np.float64]); floats
      are [spec_float] values of the binary64 format (one NaN, signed zeros
      and infinities), compared with the IEEE equality [SFeqb].
    - A column index is an [int], or a text that [int(...)] has to parse.
    - [self._values] is a [dict]: an association list in insertion order.
    - A method is a computation in a state-and-exception monad: it receives
      the object, and returns either a result or the raised exception,
      together with the object as the call left it.
    - The text conversions of floats and the parsing of integers are library
      functions (numpy, Python); they are the fields of the class [PyText]. *)

From Stdlib Require Import ZArith List String Ascii Bool Lia.
From Stdlib Require Import Decimal DecimalString DecimalZ.
From Stdlib Require Import Floats.SpecFloat.
Import ListNotations.

Local Open Scope string_scope.
Local Open Scope Z_scope.

(** ** Exceptions and results *)

Inductive exn : Type :=
| ValueError (msg : string)
| IndexError (msg : string)
| KeyError (key : Z)
| TypeError (msg : string)
| AttributeError (msg : string)
| StopIteration.

Inductive result (A : Type) : Type :=
| OK (a : A)
| Raise (e : exn).

Arguments OK {A} a.
Arguments Raise {A} e.

Definition is_OK {A} (r : result A) : bool :=
  match r with OK _ => true | Raise _ => false end.

(** The error kinds of the specification, as sets of Python exceptions. *)

Definition header_numbers_msg : string := "header size != numbers size".
Definition header_defaults_msg : string := "header size != defaults size".

Definition SchemaMismatch (e : exn) : Prop :=
  e = ValueError header_numbers_msg \/ e = ValueError header_defaults_msg.

Definition OutOfRange (e : exn) : Prop :=
  exists msg, e = IndexError msg.

(** ** The state-and-exception monad of method calls *)

Definition M (St A : Type) : Type := St -> result A * St.

Definition ret {St A} (a : A) : M St A := fun s => (OK a, s).

Definition raise {St A} (e : exn) : M St A := fun s => (Raise e, s).

Definition bind {St A B} (m : M St A) (k : A -> M St B) : M St B :=
  fun s =>
    match m s with
    | (OK a, s') => k a s'
    | (Raise e, s') => (Raise e, s')
    end.

Definition lift {St A} (r : result A) : M St A := fun s => (r, s).

Definition get_self {St} : M St St := fun s => (OK s, s).

Definition modify {St} (f : St -> St) : M St unit := fun s => (OK tt, f s).

Declare Scope py_scope.
Delimit Scope py_scope with py.
Notation "x <- m ;; k" := (bind m (fun x => k))
  (at level 61, m at next level, right associativity) : py_scope.
Notation "m ;;; k" := (bind m (fun _ => k))
  (at level 61, right associativity) : py_scope.
Local Open Scope py_scope.

(** [list(it)]: calls [next] until [StopIteration]; [None] when the fuel
    runs out first. *)
Fixpoint drain {St A} (next : M St A) (fuel : nat) (it : St)
  : option (result (list A) * St) :=
  match fuel with
  | O => None
  | S k =>
      match next it with
      | (Raise StopIteration, it') => Some (OK [], it')
      | (Raise e, it') => Some (Raise e, it')
      | (OK a, it') =>
          match drain next k it' with
          | Some (OK l, it'') => Some (OK (a :: l), it'')
          | other => other
          end
      end
  end.

(** ** Values *)

Definition float64 : Type := spec_float.

Definition nan : float64 := S754_nan.
Definition pos_zero : float64 := S754_zero false.
Definition neg_zero : float64 := S754_zero true.
(** [1.0] and [5.0] with the 53-bit mantissa of binary64. *)
Definition one : float64 := S754_finite false 4503599627370496 (-52).
Definition five : float64 := S754_finite false 5629499534213120 (-50).

Definition isnan (f : float64) : bool :=
  match f with S754_nan => true | _ => false end.

Inductive value : Type :=
| VStr (s : string)
| VNum (f : float64).

(** Python's [a == b] on cell values. *)
Definition py_eq (a b : value) : bool :=
  match a, b with
  | VStr s, VStr t => String.eqb s t
  | VNum f, VNum g => SFeqb f g
  | _, _ => false
  end.

Inductive index_arg : Type :=
| IxInt (z : Z)
| IxStr (s : string).

(** [str(z)] for an [int]. *)
Definition str_int (z : Z) : string := NilZero.string_of_int (Z.to_int z).

(** The library's text conversions: [np.float64(s)], [str(f)] for a float,
    and [int(s)], for a text [s]. *)
Class PyText : Type := {
  parse_float : string -> option float64;
  format_float : float64 -> string;
  parse_int : string -> option Z
}.

Section Builtins.
Context {T : PyText}.

(** [np.float64(v)] *)
Definition np_float64 (v : value) : result float64 :=
  match v with
  | VNum f => OK f
  | VStr s =>
      match parse_float s with
      | Some f => OK f
      | None => Raise (ValueError "could not convert string to float")
      end
  end.

(** [np.isnan(v)] *)
Definition np_isnan (v : value) : result bool :=
  match v with
  | VNum f => OK (isnan f)
  | VStr _ => Raise (TypeError "ufunc 'isnan' not supported for the input types")
  end.

(** [int(fix)] *)
Definition int (fix_ : index_arg) : result Z :=
  match fix_ with
  | IxInt z => OK z
  | IxStr s =>
      match parse_int s with
      | Some z => OK z
      | None => Raise (ValueError "invalid literal for int() with base 10")
      end
  end.

(** [str(v)], as ["{0}".format(v)] and [csv.writer] produce it. *)
Definition str (v : value) : string :=
  match v with
  | VStr s => s
  | VNum f => format_float f
  end.

Definition _is_num (v : value) : bool :=
  match np_float64 v with
  | OK _ => true
  | Raise _ => false
  end.
End Builtins.

(** [l[i]] on a Python list: a negative index counts from the end. *)
Definition list_get {A} (l : list A) (i : Z) : result A :=
  let n := Z.of_nat (List.length l) in
  let j := if i <? 0 then i + n else i in
  if (0 <=? j) && (j <? n) then
    match nth_error l (Z.to_nat j) with
    | Some a => OK a
    | None => Raise (IndexError "list index out of range")
    end
  else Raise (IndexError "list index out of range").

(** [len(l)] *)
Definition len {A} (l : list A) : Z := Z.of_nat (List.length l).

(** ** Dictionaries keyed by column index, in insertion order *)

Definition dict : Type := list (Z * value).

Fixpoint dict_get (d : dict) (k : Z) : result value :=
  match d with
  | [] => Raise (KeyError k)
  | (k', v) :: d' => if k' =? k then OK v else dict_get d' k
  end.

(** [d[k] = v]: an existing key keeps its place. *)
Fixpoint dict_set (d : dict) (k : Z) (v : value) : dict :=
  match d with
  | [] => [(k, v)]
  | (k', v') :: d' =>
      if k' =? k then (k, v) :: d' else (k', v') :: dict_set d' k v
  end.

Definition dict_has (d : dict) (k : Z) : bool :=
  existsb (fun kv => fst kv =? k) d.

(** [del d[k]] *)
Definition dict_del (d : dict) (k : Z) : result dict :=
  if dict_has d k
  then OK (filter (fun kv => negb (fst kv =? k)) d)
  else Raise (KeyError k).

(** ** [_get_header] *)

Section GetHeader.
Context {T : PyText}.

(** The comprehension of lines 29-32, from index [fix_] on. *)
Fixpoint coerce_defaults (numbers : list bool) (fix_ : Z)
         (defaults : list value) : result (list value) :=
  match defaults with
  | [] => OK []
  | d :: rest =>
      match list_get numbers fix_ with
      | Raise e => Raise e
      | OK isnum =>
          match (if isnum then
                   match np_float64 d with
                   | OK f => OK (VNum f)
                   | Raise e => Raise e
                   end
                 else OK d) with
          | Raise e => Raise e
          | OK d' =>
              match coerce_defaults numbers (fix_ + 1) rest with
              | Raise e => Raise e
              | OK rest' => OK (d' :: rest')
              end
          end
      end
  end.

(** [header] is [None] when the caller has no header to give. *)
Definition _get_header (header : option (list string))
           (defaults : list value) (numbers : option (list bool))
           (copy : bool)
  : result (list string * list value * list bool) :=
  match (if copy then
           match header with
           | Some h => OK (Some h)
           | None => Raise (TypeError "'NoneType' object is not iterable")
           end
         else OK header) with
  | Raise e => Raise e
  | OK header =>
      let numbers :=
        match numbers with
        | None => map _is_num defaults
        | Some ns => ns
        end in
      match header with
      | None => Raise (TypeError "object of type 'NoneType' has no len()")
      | Some header =>
          if negb (len header =? len numbers)
          then Raise (ValueError header_numbers_msg)
          else
            match (if copy then coerce_defaults numbers 0 defaults
                   else OK defaults) with
            | Raise e => Raise e
            | OK defaults =>
                if negb (len header =? len defaults)
                then Raise (ValueError header_defaults_msg)
                else OK (header, defaults, numbers)
            end
      end
  end.
End GetHeader.

(** ** [class SparseRow] *)

Module SparseRow.

Record t : Type := mk {
  _header : list string;
  _defaults : list value;
  _numbers : list bool;
  _values : dict
}.

Definition set_values (d : dict) (self : t) : t :=
  mk (_header self) (_defaults self) (_numbers self) d.

(** An element of [coo]: a pair given by the caller, or the list of texts
    that [e.split(':', 1)] returns in the loader. *)
Inductive coo_item : Type :=
| Pair (fix_ : index_arg) (v : value)
| Fields (l : list string).

(** The unpacking [(fix, v)] of the [for] loop of line 51. *)
Definition unpack (item : coo_item) : result (index_arg * value) :=
  match item with
  | Pair fix_ v => OK (fix_, v)
  | Fields [a; b] => OK (IxStr a, VStr b)
  | Fields [] | Fields [_] =>
      Raise (ValueError "not enough values to unpack (expected 2)")
  | Fields _ => Raise (ValueError "too many values to unpack (expected 2)")
  end.

Section Methods.
Context {T : PyText}.

Definition _check_range (fix_ : Z) : M t unit :=
  self <- get_self ;;
  if (fix_ <? 0) || (fix_ >=? len (_defaults self))
  then raise (IndexError (String.append "index out of bounds: " (str_int fix_)))
  else ret tt.

Definition _convert (fix_ : Z) (v : value) : M t (value * bool) :=
  self <- get_self ;;
  default <- lift (list_get (_defaults self) fix_) ;;
  isnum <- lift (list_get (_numbers self) fix_) ;;
  if isnum : bool then
    v <- lift (np_float64 v) ;;
    is_d <- (if py_eq (VNum v) default then ret true
             else if isnan v then lift (np_isnan default)
             else ret false) ;;
    ret (VNum v, is_d)
  else ret (v, py_eq v default).

(** [self._values[fix] = v] *)
Definition store (fix_ : Z) (v : value) : M t unit :=
  modify (fun self => set_values (dict_set (_values self) fix_ v) self).

(** [try: del self._values[fix] except KeyError: pass] *)
Definition discard (fix_ : Z) : M t unit :=
  self <- get_self ;;
  match dict_del (_values self) fix_ with
  | OK d => modify (set_values d)
  | Raise (KeyError _) => ret tt
  | Raise e => raise e
  end.

(** The local function [add] of [__init__]. *)
Definition add (fix_ : index_arg) (v : value) : M t unit :=
  fix_ <- lift (int fix_) ;;
  _check_range fix_ ;;;
  c <- _convert fix_ v ;;
  if negb (snd c) then store fix_ (fst c) else ret tt.

Fixpoint add_all (coo : list coo_item) : M t unit :=
  match coo with
  | [] => ret tt
  | item :: rest =>
      p <- lift (unpack item) ;;
      add (fst p) (snd p) ;;;
      add_all rest
  end.

Definition __init__ (header : list string) (defaults : list value)
           (numbers : option (list bool)) (coo : list coo_item)
           (copy : bool) : result t :=
  match _get_header (Some header) defaults numbers copy with
  | Raise e => Raise e
  | OK (h, d, n) =>
      match add_all coo (mk h d n []) with
      | (OK _, self) => OK self
      | (Raise e, _) => Raise e
      end
  end.

Definition get_values (self : t) : list (Z * value) := _values self.

Definition get_name (fix_ : Z) : M t string :=
  self <- get_self ;; lift (list_get (_header self) fix_).

Definition is_num (fix_ : Z) : M t bool :=
  self <- get_self ;; lift (list_get (_numbers self) fix_).

(** The loop of [from_dense]: [fix_] is the index that [enumerate] gives
    to the head of [row]; the result is [last_fix]. *)
Fixpoint from_dense_loop (fix_ : Z) (row : list value) (last_fix : Z)
  : M t Z :=
  match row with
  | [] => ret last_fix
  | v :: rest =>
      c <- _convert fix_ v ;;
      (if negb (snd c) then store fix_ (fst c) else ret tt) ;;;
      from_dense_loop (fix_ + 1) rest fix_
  end.

Definition from_dense (row : list value) : M t unit :=
  modify (set_values []) ;;;
  last_fix <- from_dense_loop 0 row 0 ;;
  _check_range last_fix.

Definition _get (fix_ : Z) : M t value :=
  self <- get_self ;;
  match dict_get (_values self) fix_ with
  | OK v => ret v
  | Raise (KeyError _) => lift (list_get (_defaults self) fix_)
  | Raise e => raise e
  end.

Definition __getitem__ (fix_ : index_arg) : M t value :=
  fix_ <- lift (int fix_) ;;
  _get fix_.

Definition __setitem__ (fix_ : index_arg) (v : value) : M t unit :=
  fix_ <- lift (int fix_) ;;
  _check_range fix_ ;;;
  c <- _convert fix_ v ;;
  if snd c then discard fix_ else store fix_ (fst c).

Definition __delitem__ (fix_ : index_arg) : M t unit :=
  fix_ <- lift (int fix_) ;;
  _check_range fix_ ;;;
  discard fix_.

Definition clear : M t unit := modify (set_values []).
End Methods.

End SparseRow.

(** The iterator class of [SparseRow.__iter__]; [row] is the row it closes
    over. *)
Module RowIter.

Record t : Type := mk { ix : Z }.

Definition __init__ : t := mk 0.

Definition __next__ (row : SparseRow.t) : M t value :=
  self <- get_self ;;
  if ix self >=? len (SparseRow._defaults row) then raise StopIteration
  else
    res <- lift (fst (SparseRow._get (ix self) row)) ;;
    modify (fun self => mk (ix self + 1)) ;;;
    ret res.

(** [list(row)] *)
Definition to_list (row : SparseRow.t) (fuel : nat)
  : option (result (list value)) :=
  option_map fst (drain (__next__ row) fuel __init__).

End RowIter.

(** ** [class BaseFile]

    The csv reader or writer over the (plain or gzip) text file is the line
    transport: [lines] are the field lists given to [writerow] so far, or
    the field lists that the reader has still to yield. What a reader
    yields from the file of a writer is [reread], below. *)

Module BaseFile.

Record t : Type := mk {
  lines : list (list string);
  (** [false] once [self._csv] is [None] *)
  _csv : bool;
  closed : bool
}.

(** [fn] stands for the field lists of the file named [fn]; opening for
    writing truncates. *)
Definition __init__ (fn : list (list string)) (is_write : bool) : t :=
  mk (if is_write then [] else fn) true false.

Definition close : M t unit :=
  modify (fun self => mk (lines self) false true).

(** [self._csv.writerow(row)] *)
Definition writerow (row : list string) : M t unit :=
  self <- get_self ;;
  if _csv self
  then modify (fun self => mk (lines self ++ [row]) (_csv self) (closed self))
  else raise (AttributeError "'NoneType' object has no attribute 'writerow'").

(** [next(self._csv)] *)
Definition next : M t (list string) :=
  self <- get_self ;;
  if _csv self then
    match lines self with
    | [] => raise StopIteration
    | row :: rest =>
        modify (fun self => mk rest (_csv self) (closed self)) ;;;
        ret row
    end
  else raise (TypeError "'NoneType' object is not an iterator").

(** [try: body except: self.close(); raise] *)
Definition close_on_error {A} (body : M t A) : M t A :=
  fun self =>
    match body self with
    | (Raise e, self') => (Raise e, snd (close self'))
    | done => done
    end.

End BaseFile.

(** [e.split(sep, 1)] *)
Fixpoint split1 (sep : ascii) (e : string) : list string :=
  match e with
  | EmptyString => [EmptyString]
  | String c rest =>
      if Ascii.eqb c sep then [EmptyString; rest]
      else match split1 sep rest with
           | a :: more => String c a :: more
           | [] => [String c EmptyString]
           end
  end.

(** A call [m] on a local object [obj]; the object after the call is part
    of the result. *)
Definition call {St Obj A} (obj : Obj) (m : M Obj A) : M St (A * Obj) :=
  fun s =>
    match m obj with
    | (OK a, obj') => (OK (a, obj'), s)
    | (Raise e, _) => (Raise e, s)
    end.

(** ** [class SparseWriter] *)

Module SparseWriter.

Record t : Type := mk {
  base : BaseFile.t;
  _header : list string;
  _defaults : list value;
  _numbers : list bool
}.

(** A method of [BaseFile] called on [self]. *)
Definition super {A} (m : M BaseFile.t A) : M t A :=
  fun self =>
    let '(r, f) := m (base self) in
    (r, mk f (_header self) (_defaults self) (_numbers self)).

Section Methods.
Context {T : PyText}.

(** The second component is the transport as the constructor leaves
    it. *)
Definition __init__ (fn : list (list string)) (header : list string)
           (defaults : list value) (numbers : option (list bool))
           (copy : bool) : result t * BaseFile.t :=
  let body : M BaseFile.t t :=
    hdn <- lift (_get_header (Some header) defaults numbers copy) ;;
    let '(h, d, n) := hdn in
    BaseFile.writerow h ;;;
    BaseFile.writerow (map str d) ;;;
    f <- get_self ;;
    ret (mk f h d n) in
  BaseFile.close_on_error body (BaseFile.__init__ fn true).

Definition get_empty_row : M t SparseRow.t :=
  self <- get_self ;;
  lift (SparseRow.__init__ (_header self) (_defaults self)
          (Some (_numbers self)) [] false).

Definition write_sparse_row (sparse : list (Z * value)) : M t unit :=
  super (BaseFile.writerow
           (map (fun p => String.append (str_int (fst p))
                            (String ":" (str (snd p)))) sparse)).

Definition write_dense_row (values : list value) : M t unit :=
  row <- get_empty_row ;;
  r <- call row (SparseRow.from_dense values) ;;
  write_sparse_row (SparseRow.get_values (snd r)).

(** [for values in rows: self.write_dense_row(values)] *)
Fixpoint write_dense_rows (rows : list (list value)) : M t unit :=
  match rows with
  | [] => ret tt
  | values :: rest => write_dense_row values ;;; write_dense_rows rest
  end.
End Methods.

End SparseWriter.

(** ** [class SparseLoader] *)

Module SparseLoader.

Record t : Type := mk {
  base : BaseFile.t;
  _header : list string;
  _defaults : list value;
  _numbers : list bool
}.

Definition super {A} (m : M BaseFile.t A) : M t A :=
  fun self =>
    let '(r, f) := m (base self) in
    (r, mk f (_header self) (_defaults self) (_numbers self)).

Section Methods.
Context {T : PyText}.

(** Line 219 stores the line it reads in [self._header]; the argument
    [header] that line 223 passes on is unchanged. *)
Definition __init__ (fn : list (list string))
           (header : option (list string))
           (defaults : option (list value))
           (numbers : option (list bool)) (copy : bool)
  : result t * BaseFile.t :=
  let body : M BaseFile.t t :=
    self_header <- match header with
                   | None => l <- BaseFile.next ;; ret (Some l)
                   | Some _ => ret None
                   end ;;
    defaults <- match defaults with
                | None => l <- BaseFile.next ;; ret (map VStr l)
                | Some d => ret d
                end ;;
    hdn <- lift (_get_header header defaults numbers copy) ;;
    let '(h, d, n) := hdn in
    f <- get_self ;;
    ret (mk f h d n) in
  BaseFile.close_on_error body (BaseFile.__init__ fn false).

Definition get_header (self : t) : list string := _header self.

Definition get_defaults (self : t) : list value := _defaults self.

Definition __next__ : M t SparseRow.t :=
  self <- get_self ;;
  line <- super BaseFile.next ;;
  lift (SparseRow.__init__ (_header self) (_defaults self)
          (Some (_numbers self))
          (map (fun e => SparseRow.Fields (split1 ":" e)) line) false).

(** [list(loader)] *)
Definition to_list (self : t) (fuel : nat)
  : option (result (list SparseRow.t)) :=
  option_map fst (drain __next__ fuel self).
End Methods.

End SparseLoader.

(** ** Text conversions on a table of literals

    The conversions of numpy and Python restricted to a few float literals
    and to plain decimal integers, to run the model on examples. *)

Module Literals.

Definition parse_float (s : string) : option float64 :=
  if String.eqb s "nan" then Some nan
  else if String.eqb s "0.0" then Some pos_zero
  else if String.eqb s "-0.0" then Some neg_zero
  else if String.eqb s "1.0" then Some one
  else if String.eqb s "5.0" then Some five
  else if String.eqb s "inf" then Some (S754_infinity false)
  else if String.eqb s "-inf" then Some (S754_infinity true)
  else None.

Definition format_float (f : float64) : string :=
  match f with
  | S754_nan => "nan"
  | S754_zero false => "0.0"
  | S754_zero true => "-0.0"
  | S754_infinity false => "inf"
  | S754_infinity true => "-inf"
  | S754_finite false 4503599627370496 (-52) => "1.0"
  | S754_finite false 5629499534213120 (-50) => "5.0"
  | S754_finite _ _ _ => "<float>"
  end.

Definition parse_int (s : string) : option Z :=
  option_map Z.of_int (NilZero.int_of_string s).

Definition text : PyText :=
  Build_PyText parse_float format_float parse_int.

End Literals.

(** ** The properties of the specification *)

(** The schema of the concrete scenario: names [a, b, c], defaults
    [0.0, "x", 1.0], numeric flags [true, false, true]. *)
Definition abc_header : list string := ["a"; "b"; "c"].
Definition abc_defaults : list value := [VNum pos_zero; VStr "x"; VNum one].
Definition abc_numbers : list bool := [true; false; true].
Definition abc_row (d : dict) : SparseRow.t :=
  SparseRow.mk abc_header abc_defaults abc_numbers d.

(** A default is stored as a float in a numeric column and as a text in
    the others. *)
Definition default_typed (d : value) (isnum : bool) : bool :=
  match d, isnum with
  | VNum _, true => true
  | VStr _, false => true
  | _, _ => false
  end.

Definition valid_schema (header : list string) (defaults : list value)
           (numbers : list bool) : Prop :=
  List.length header = List.length numbers /\
  List.length header = List.length defaults /\
  Forall2 (fun d isnum => default_typed d isnum = true) defaults numbers.

Definition valid_row (self : SparseRow.t) : Prop :=
  valid_schema (SparseRow._header self) (SparseRow._defaults self)
    (SparseRow._numbers self).

(** The number of columns, [N]. *)
Definition columns (self : SparseRow.t) : nat :=
  List.length (SparseRow._defaults self).

Definition value_isnan (v : value) : bool :=
  match v with VNum f => isnan f | VStr _ => false end.

(** The cell equality rule, in the words of the specification: in a numeric
    column [v] equals the default [d] if [v == d] or both are NaN; in the
    other columns if the values are equal. *)
Definition default_equal (isnum : bool) (v d : value) : bool :=
  if isnum then py_eq v d || (value_isnan v && value_isnan d)
  else py_eq v d.

(** The elision invariant: no stored entry is default-equal to the default
    of its column. *)
Definition elided (self : SparseRow.t) : Prop :=
  forall fix_ v isnum d,
    In (fix_, v) (SparseRow._values self) ->
    list_get (SparseRow._numbers self) fix_ = OK isnum ->
    list_get (SparseRow._defaults self) fix_ = OK d ->
    default_equal isnum v d = false.

(** The stored entries belong to columns of the schema. *)
Definition keys_in_range (self : SparseRow.t) : Prop :=
  forall kv, In kv (SparseRow._values self) ->
             0 <= fst kv < len (SparseRow._defaults self).

(** The rows that a program can hold: built by [__init__], then changed by
    the mutating methods, whether or not a call raises. *)
Inductive reachable {T : PyText} : SparseRow.t -> Prop :=
| reach_init header defaults numbers coo copy self :
    SparseRow.__init__ header defaults numbers coo copy = OK self ->
    reachable self
| reach_from_dense row self :
    reachable self -> reachable (snd (SparseRow.from_dense row self))
| reach_setitem fix_ v self :
    reachable self -> reachable (snd (SparseRow.__setitem__ fix_ v self))
| reach_delitem fix_ self :
    reachable self -> reachable (snd (SparseRow.__delitem__ fix_ self))
| reach_clear self :
    reachable self -> reachable (snd (SparseRow.clear self)).

(** ** Dense rows *)

Section DenseRows.
Context {T : PyText}.

(** Every value that [row] gives to a numeric column converts to a
    float. *)
Definition converts (row : list value) (numbers : list bool) : Prop :=
  forall i v,
    nth_error row i = Some v -> nth_error numbers i = Some true ->
    exists f, np_float64 v = OK f.

(** The output [o] reproduces the cell [v] under the default-equality
    rule: in a numeric column the float of [v] and [o] are [==] or both
    NaN; in the other columns [o] is [v]. *)
Definition cell_equal (isnum : bool) (v o : value) : Prop :=
  if isnum
  then exists f, np_float64 v = OK f /\ default_equal true (VNum f) o = true
  else o = v.

Definition dense_equal (numbers : list bool) (row out : list value)
  : Prop :=
  List.length out = List.length row /\
  forall i isnum v o,
    nth_error numbers i = Some isnum -> nth_error row i = Some v ->
    nth_error out i = Some o ->
    cell_equal isnum v o.

(** The conversions of [row] succeed, [fix_] being the column of its
    head. *)
Fixpoint all_convert (self : SparseRow.t) (fix_ : Z) (row : list value)
  : Prop :=
  match row with
  | [] => True
  | v :: rest =>
      (exists c is_d, fst (SparseRow._convert fix_ v self) = OK (c, is_d)) /\
      all_convert self (fix_ + 1) rest
  end.

(** The entries of the cells of [row] that are not default-equal, in the
    order of the columns, [fix_] being the column of its head. *)
Fixpoint kept (self : SparseRow.t) (fix_ : Z) (row : list value) : dict :=
  match row with
  | [] => []
  | v :: rest =>
      match fst (SparseRow._convert fix_ v self) with
      | OK (c, false) => (fix_, c) :: kept self (fix_ + 1) rest
      | _ => kept self (fix_ + 1) rest
      end
  end.

(** The value of [last_fix] after the loop of [from_dense]. *)
Definition last_index (fix_ : Z) (row : list value) (last_fix : Z) : Z :=
  match row with
  | [] => last_fix
  | _ :: _ => fix_ + len row - 1
  end.


(** The token ["{0}:{1}".format(fix, v)] of an entry. *)
Definition token (p : Z * value) : string :=
  String.append (str_int (fst p)) (String ":" (str (snd p))).
End DenseRows.

(** The loader over the lines [ls], with the schema of the writer [w]. *)
Definition loader_of (w : SparseWriter.t) (ls : list (list string))
  : SparseLoader.t :=
  SparseLoader.mk (BaseFile.__init__ ls false) (SparseWriter._header w)
    (SparseWriter._defaults w) (SparseWriter._numbers w).

(** The lines that the writer [w1] holds after those of [w0]. *)
Definition row_lines (w0 w1 : SparseWriter.t) : list (list string) :=
  skipn (List.length (BaseFile.lines (SparseWriter.base w0)))
    (BaseFile.lines (SparseWriter.base w1)).

(** The writer [w] once it has written the lines [ls]. *)
Definition written (w : SparseWriter.t) (ls : list (list string))
  : SparseWriter.t :=
  SparseWriter.mk
    (BaseFile.mk (BaseFile.lines (SparseWriter.base w) ++ ls)
       (BaseFile._csv (SparseWriter.base w))
       (BaseFile.closed (SparseWriter.base w)))
    (SparseWriter._header w) (SparseWriter._defaults w)
    (SparseWriter._numbers w).

(** The row without entries over the schema of the writer [w]. *)
Definition empty_row (w : SparseWriter.t) : SparseRow.t :=
  SparseRow.mk (SparseWriter._header w) (SparseWriter._defaults w)
    (SparseWriter._numbers w) [].

(** The line of a dense row: the tokens of the entries it keeps. *)
Definition dense_line {T : PyText} (w : SparseWriter.t) (values : list value)
  : list string :=
  map token (kept (empty_row w) 0 values).

(** ** The file between the writer and the reader

    [BaseFile] opens its text file without [newline=''] (lines 141 and
    144). What [csv.writer] writes comes back from [csv.reader] with the
    universal newlines of the text layer applied inside the fields too; and
    the reader refuses a field of more than [csv.field_size_limit()]
    characters. (As for Python 3.11 or later on a platform whose line
    separator is the line feed, and an encoding, such as the UTF-8 of the
    gzip files, that has the characters of the fields.) *)

Definition CR : ascii := "013"%char.
Definition LF : ascii := "010"%char.

(** A carriage return, alone or before a line feed, is read as one line
    feed. *)
Fixpoint universal_newlines (s : string) : string :=
  match s with
  | EmptyString => EmptyString
  | String c rest =>
      if Ascii.eqb c CR then
        String LF
          match rest with
          | String c' rest' =>
              if Ascii.eqb c' LF then universal_newlines rest'
              else universal_newlines rest
          | EmptyString => EmptyString
          end
      else String c (universal_newlines rest)
  end.

(** [csv.field_size_limit()], as the module sets it. *)
Definition field_size_limit : Z := 131072.

(** The field lists that [csv.reader] yields from the file where
    [csv.writer] has written the field lists [ls]; [None] when a field is
    over the limit, where the reader raises [_csv.Error] at its line. *)
Definition reread (ls : list (list string)) : option (list (list string)) :=
  if forallb
       (forallb (fun field =>
                   Z.of_nat (String.length (universal_newlines field))
                   <=? field_size_limit)) ls
  then Some (map (map universal_newlines) ls)
  else None.



(** The default [d] of a column is default-equal to itself by the rule of
    [_convert]: in a numeric column when it is a float; in another column
    when it is not the float NaN. *)
Definition restorable (isnum : bool) (d : value) : bool :=
  match d with
  | VNum f => isnum || negb (isnan f)
  | VStr _ => negb isnum
  end.

Section RoundTripCells.
Context {T : PyText}.


End RoundTripCells.

(** ** Entries, column by column *)

Section Entries.
Context {T : PyText}.

(** The value that the element [item] of [coo] stores in column [i], if it
    stores one there. *)
Definition stored_by (self : SparseRow.t) (i : Z)
           (item : SparseRow.coo_item) : option value :=
  match SparseRow.unpack item with
  | OK (fix_, v) =>
      match int fix_ with
      | OK k =>
          if k =? i
          then match fst (SparseRow._convert k v self) with
               | OK (c, false) => Some c
               | _ => None
               end
          else None
      | Raise _ => None
      end
  | Raise _ => None
  end.

(** The value that the last element of [coo] to store one in column [i]
    stores there. *)
Definition last_stored (self : SparseRow.t) (i : Z)
           (coo : list SparseRow.coo_item) : option value :=
  fold_left (fun acc item =>
               match stored_by self i item with
               | Some c => Some c
               | None => acc
               end) coo None.

(** [for (fix, v) in enumerate(row): self[fix] = v], [fix_] being the
    index of the head of [row]. *)
Fixpoint set_each (fix_ : Z) (row : list value) : M SparseRow.t unit :=
  match row with
  | [] => ret tt
  | v :: rest =>
      SparseRow.__setitem__ (IxInt fix_) v ;;; set_each (fix_ + 1) rest
  end.

(** The line that [write_sparse_row(row.get_values())] writes. *)
Definition sparse_line (self : SparseRow.t) : list string :=
  map token (SparseRow.get_values self).
End Entries.

(** ** The writers of the examples *)

(** The writer of the scenario, after its constructor. *)
Definition abc_writer : SparseWriter.t :=
  SparseWriter.mk (BaseFile.mk [abc_header; ["0.0"; "x"; "1.0"]] true false)
    abc_header abc_defaults abc_numbers.


(** The writer of one numeric column [a] of default [0.0], after its
    constructor. *)
Definition zero_writer : SparseWriter.t :=
  SparseWriter.mk (BaseFile.mk [["a"]; ["0.0"]] true false)
    ["a"] [VNum pos_zero] [true].

(** The schema of the scenario with the default NaN for column [c]. *)
Definition nan_writer : SparseWriter.t :=
  SparseWriter.mk (BaseFile.mk [abc_header; ["0.0"; "x"; "nan"]] true false)
    abc_header [VNum pos_zero; VStr "x"; VNum nan] abc_numbers.

(** * Verification *)

Ltac unfold_monad :=
  unfold bind, ret, raise, lift, get_self, modify, call in *.

#[local] Arguments py_eq : simpl never.

Local Open Scope list_scope.

(** ** Floats and dictionaries *)

Lemma SFeqb_refl (f : float64) : isnan f = false -> SFeqb f f = true.
Proof.
  unfold SFeqb.
  destruct f as [s | s | | s m e]; simpl; try discriminate; intros _.
  - reflexivity.
  - destruct s; reflexivity.
  - destruct s; rewrite Z.compare_refl, Pos.compare_cont_refl; reflexivity.
Qed.

Lemma py_eq_str (s : string) : py_eq (VStr s) (VStr s) = true.
Proof. apply String.eqb_refl. Qed.

Lemma dict_has_filter (d : dict) (k : Z) :
  dict_has (filter (fun kv => negb (fst kv =? k)) d) k = false.
Proof.
  induction d as [| [k' v] d IH]; simpl; [reflexivity |].
  destruct (k' =? k) eqn:E; simpl; [exact IH |].
  rewrite E. exact IH.
Qed.

Lemma dict_get_has (d : dict) (k : Z) :
  dict_has d k = false -> dict_get d k = Raise (KeyError k).
Proof.
  induction d as [| [k' v] d IH]; simpl; [reflexivity |].
  destruct (k' =? k); simpl; [discriminate | exact IH].
Qed.

Lemma filter_absent (d : dict) (k : Z) :
  dict_has d k = false -> filter (fun kv => negb (fst kv =? k)) d = d.
Proof.
  induction d as [| [k' v] d IH]; simpl; [reflexivity |].
  destruct (k' =? k); simpl; [discriminate |].
  intros H. rewrite IH by exact H. reflexivity.
Qed.

Lemma dict_set_In (d : dict) (k : Z) (v : value) (kv : Z * value) :
  In kv (dict_set d k v) -> kv = (k, v) \/ In kv d.
Proof.
  induction d as [| [k' v'] d IH]; simpl.
  - intros [H | []]; auto.
  - destruct (k' =? k); simpl; intros [H | H]; auto.
    destruct (IH H); auto.
Qed.

(** ** The methods that only read the row *)

Section RowReads.
Context {T : PyText}.

Lemma check_range_state (fix_ : Z) (self : SparseRow.t) :
  snd (SparseRow._check_range fix_ self) = self.
Proof.
  unfold SparseRow._check_range. unfold_monad.
  destruct ((fix_ <? 0) || (fix_ >=? len (SparseRow._defaults self)));
    reflexivity.
Qed.

Lemma check_range_OK (fix_ : Z) (self : SparseRow.t) :
  0 <= fix_ < len (SparseRow._defaults self) ->
  SparseRow._check_range fix_ self = (OK tt, self).
Proof.
  intros H. unfold SparseRow._check_range. unfold_monad.
  replace (fix_ <? 0) with false by (symmetry; apply Z.ltb_ge; lia).
  replace (fix_ >=? len (SparseRow._defaults self)) with false
    by (symmetry; rewrite Z.geb_leb; apply Z.leb_gt; lia).
  reflexivity.
Qed.

Lemma check_range_raises (fix_ : Z) (self : SparseRow.t) :
  fix_ < 0 \/ len (SparseRow._defaults self) <= fix_ ->
  SparseRow._check_range fix_ self =
  (Raise (IndexError (String.append "index out of bounds: " (str_int fix_))),
   self).
Proof.
  intros H. unfold SparseRow._check_range. unfold_monad.
  replace ((fix_ <? 0) || (fix_ >=? len (SparseRow._defaults self)))
    with true; [reflexivity |].
  symmetry. apply orb_true_iff. rewrite Z.geb_leb.
  destruct H; [left; apply Z.ltb_lt | right; apply Z.leb_le]; lia.
Qed.

Lemma convert_state (fix_ : Z) (v : value) (self : SparseRow.t) :
  snd (SparseRow._convert fix_ v self) = self.
Proof.
  unfold SparseRow._convert. unfold_monad.
  destruct (list_get (SparseRow._defaults self) fix_) as [d |]; simpl;
    [| reflexivity].
  destruct (list_get (SparseRow._numbers self) fix_) as [[] |]; simpl;
    try reflexivity.
  destruct (np_float64 v) as [f |]; simpl; [| reflexivity].
  destruct (py_eq (VNum f) d); simpl; [reflexivity |].
  destruct (isnan f); simpl; [| reflexivity].
  destruct (np_isnan d); reflexivity.
Qed.

(** What [_convert] answers is the cell equality rule. *)
Lemma convert_default_equal (fix_ : Z) (v c : value) (is_d : bool)
      (self self' : SparseRow.t) :
  SparseRow._convert fix_ v self = (OK (c, is_d), self') ->
  exists isnum d,
    list_get (SparseRow._numbers self) fix_ = OK isnum /\
    list_get (SparseRow._defaults self) fix_ = OK d /\
    default_equal isnum c d = is_d.
Proof.
  unfold SparseRow._convert. unfold_monad.
  destruct (list_get (SparseRow._defaults self) fix_) as [d |]; simpl;
    [| discriminate].
  destruct (list_get (SparseRow._numbers self) fix_) as [isnum |]; simpl;
    [| discriminate].
  destruct isnum.
  - destruct (np_float64 v) as [f |]; simpl; [| discriminate].
    destruct (py_eq (VNum f) d) eqn:E; simpl.
    + intros [= <- <- <-]. exists true, d. simpl. rewrite E. auto.
    + destruct (isnan f) eqn:Ef; simpl.
      * destruct d as [s | g]; simpl; [discriminate |].
        intros [= <- <- <-]. exists true, (VNum g). simpl in *.
        rewrite E, Ef. auto.
      * intros [= <- <- <-]. exists true, d. simpl. rewrite E, Ef. auto.
  - intros [= <- <- <-]. exists false, d. auto.
Qed.
End RowReads.

(** ** Errors leave the row as it was *)

Section RowErrors.
Context {T : PyText}.

Lemma discard_OK (fix_ : Z) (self : SparseRow.t) :
  fst (SparseRow.discard fix_ self) = OK tt.
Proof.
  unfold SparseRow.discard, dict_del. unfold_monad.
  destruct (dict_has (SparseRow._values self) fix_); reflexivity.
Qed.

Lemma setitem_error_state (fix_ : index_arg) (v : value) (e : exn)
      (self self' : SparseRow.t) :
  SparseRow.__setitem__ fix_ v self = (Raise e, self') -> self' = self.
Proof.
  unfold SparseRow.__setitem__. unfold_monad.
  destruct (int fix_) as [z |]; [| intros [= _ <-]; reflexivity].
  pose proof (check_range_state z self) as Hc.
  destruct (SparseRow._check_range z self) as [[[] |] s1]; simpl in Hc;
    subst s1; [| intros [= _ <-]; reflexivity].
  pose proof (convert_state z v self) as Hv.
  destruct (SparseRow._convert z v self) as [[[c is_d] |] s2]; simpl in Hv;
    subst s2; [| intros [= _ <-]; reflexivity].
  simpl. destruct is_d.
  - pose proof (discard_OK z self) as Hd.
    destruct (SparseRow.discard z self) as [r s3]; simpl in Hd; subst r.
    discriminate.
  - unfold SparseRow.store. unfold_monad. discriminate.
Qed.

Lemma delitem_error_state (fix_ : index_arg) (e : exn)
      (self self' : SparseRow.t) :
  SparseRow.__delitem__ fix_ self = (Raise e, self') -> self' = self.
Proof.
  unfold SparseRow.__delitem__. unfold_monad.
  destruct (int fix_) as [z |]; [| intros [= _ <-]; reflexivity].
  pose proof (check_range_state z self) as Hc.
  destruct (SparseRow._check_range z self) as [[[] |] s1]; simpl in Hc;
    subst s1; [| intros [= _ <-]; reflexivity].
  pose proof (discard_OK z self) as Hd.
  destruct (SparseRow.discard z self) as [r s3]; simpl in Hd; subst r.
  discriminate.
Qed.

(** C10. When [__setitem__] or [__delitem__] raises (the index is out of
    range, or the value of a numeric column does not convert), the row,
    and so its stored sparse mapping, is what it was before the call. *)
Theorem setitem_delitem_error_keeps_values
        (fix_ : index_arg) (v : value) (e : exn)
        (self self' : SparseRow.t) :
  SparseRow.__setitem__ fix_ v self = (Raise e, self') \/
  SparseRow.__delitem__ fix_ self = (Raise e, self') ->
  SparseRow._values self' = SparseRow._values self.
Proof.
  intros [H | H].
  - apply setitem_error_state in H. now subst.
  - apply delitem_error_state in H. now subst.
Qed.

Lemma setitem_out_of_range (i : Z) (v : value) (self : SparseRow.t) :
  i < 0 \/ len (SparseRow._defaults self) <= i ->
  exists e, SparseRow.__setitem__ (IxInt i) v self = (Raise e, self) /\
            OutOfRange e.
Proof.
  intros H. unfold SparseRow.__setitem__. unfold_monad. simpl.
  rewrite (check_range_raises i self H).
  eexists; split; [reflexivity | eexists; reflexivity].
Qed.

Lemma delitem_out_of_range (i : Z) (self : SparseRow.t) :
  i < 0 \/ len (SparseRow._defaults self) <= i ->
  exists e, SparseRow.__delitem__ (IxInt i) self = (Raise e, self) /\
            OutOfRange e.
Proof.
  intros H. unfold SparseRow.__delitem__. unfold_monad. simpl.
  rewrite (check_range_raises i self H).
  eexists; split; [reflexivity | eexists; reflexivity].
Qed.

(** C5. [__getitem__] does not check the range: on the three-column row
    of the scenario the index [-1] reads the default of the last column,
    where [__setitem__] and [__delitem__] raise [IndexError]. *)
Theorem getitem_negative_index_reads_last_default :
  SparseRow.__getitem__ (IxInt (-1)) (abc_row []) =
  (OK (VNum one), abc_row []) /\
  (exists e, fst (SparseRow.__setitem__ (IxInt (-1)) (VNum one)
                    (abc_row [])) = Raise e /\ OutOfRange e) /\
  (exists e, fst (SparseRow.__delitem__ (IxInt (-1)) (abc_row [])) = Raise e
             /\ OutOfRange e).
Proof.
  split; [reflexivity |].
  split; eexists; (split; [reflexivity | eexists; reflexivity]).
Qed.

(** C7. In [__init__] a later entry that is default-equal does not remove
    the earlier entry of its index: with the default [0.0], the entries
    [(0, 5.0), (0, 0.0)] leave [5.0] stored, and [row[0]] is [5.0], not
    the default. The same two values given to [__setitem__] in this order
    leave nothing stored. *)
Theorem init_default_duplicate_keeps_earlier_entry :
  let coo := [SparseRow.Pair (IxInt 0) (VNum five);
              SparseRow.Pair (IxInt 0) (VNum pos_zero)] in
  let self := SparseRow.mk ["a"] [VNum pos_zero] [true] [(0, VNum five)] in
  SparseRow.__init__ ["a"] [VNum pos_zero] (Some [true]) coo true = OK self /\
  SparseRow.__getitem__ (IxInt 0) self = (OK (VNum five), self) /\
  (SparseRow.__setitem__ (IxInt 0) (VNum five) ;;;
   SparseRow.__setitem__ (IxInt 0) (VNum pos_zero))
    (SparseRow.mk ["a"] [VNum pos_zero] [true] []) =
  (OK tt, SparseRow.mk ["a"] [VNum pos_zero] [true] []).
Proof. repeat split. Qed.
End RowErrors.

(** The row [abc_row []] rejects the index [7]. *)
Lemma setitem_delitem_error_keeps_values_witness :
  SparseRow._values
    (snd (SparseRow.__setitem__ (T := Literals.text) (IxInt 7) (VStr "y")
            (abc_row [(1, VStr "y")]))) =
  [(1, VStr "y")].
Proof.
  apply (setitem_delitem_error_keeps_values (T := Literals.text)
           (IxInt 7) (VStr "y")
           (IndexError "index out of bounds: 7")
           (abc_row [(1, VStr "y")])).
  left. reflexivity.
Defined.

(** ** Construction of the schema, the writer and the loader *)

Section Construction.
Context {T : PyText}.

Lemma close_on_error_closed {A} (body : M BaseFile.t A) (f f' : BaseFile.t)
      (e : exn) :
  BaseFile.close_on_error body f = (Raise e, f') ->
  BaseFile.closed f' = true.
Proof.
  unfold BaseFile.close_on_error.
  destruct (body f) as [[a | e'] f1]; [discriminate |].
  intros [= _ <-]. reflexivity.
Qed.

(** A constructor of [SparseWriter] that raises has closed the file. *)
Lemma writer_init_error_closed fn header defaults numbers copy e f :
  SparseWriter.__init__ fn header defaults numbers copy = (Raise e, f) ->
  BaseFile.closed f = true.
Proof. apply close_on_error_closed. Qed.

(** A constructor of [SparseLoader] that raises has closed the file. *)
Lemma loader_init_error_closed fn header defaults numbers copy e f :
  SparseLoader.__init__ fn header defaults numbers copy = (Raise e, f) ->
  BaseFile.closed f = true.
Proof. apply close_on_error_closed. Qed.

(** What [_get_header] returns has the three lengths equal. *)
Lemma get_header_lengths header defaults numbers copy h d n :
  _get_header header defaults numbers copy = OK (h, d, n) ->
  List.length h = List.length n /\ List.length h = List.length d.
Proof.
  unfold _get_header.
  destruct (if copy then _ else _) as [[hd |] |]; try discriminate.
  destruct (negb (len hd =? len _)) eqn:E1; [discriminate |].
  destruct (if copy then _ else _) as [ds |]; [| discriminate].
  destruct (negb (len hd =? len ds)) eqn:E2; [discriminate |].
  intros [= <- <- <-].
  apply negb_false_iff, Z.eqb_eq in E1, E2. unfold len in *.
  split; lia.
Qed.

Lemma coerce_defaults_length (numbers : list bool) (defaults : list value) :
  forall fix_ ds,
    coerce_defaults numbers fix_ defaults = OK ds ->
    List.length ds = List.length defaults.
Proof.
  induction defaults as [| d rest IH]; intros k ds; simpl.
  - now intros [= <-].
  - destruct (list_get numbers k) as [isnum |]; [| discriminate].
    destruct (if isnum then _ else _) as [d' |]; [| discriminate].
    destruct (coerce_defaults numbers (k + 1) rest) as [rest' |] eqn:E;
      [| discriminate].
    intros [= <-]. simpl. now rewrite (IH _ _ E).
Qed.

(** X3. Names, defaults and numeric flags that are not of one length never
    make a schema: [_get_header] raises, with or without [copy]. *)
Lemma get_header_mismatch_raises header defaults numbers copy :
  List.length header <> List.length numbers \/
  List.length header <> List.length defaults ->
  exists e, _get_header (Some header) defaults (Some numbers) copy = Raise e.
Proof.
  intros Hne.
  destruct (_get_header (Some header) defaults (Some numbers) copy)
    as [[[h d] n] |] eqn:E; [| eauto].
  exfalso. revert E. unfold _get_header.
  replace (if copy then OK (Some header) else OK (Some header))
    with (OK (Some header) : result (option (list string)))
    by now destruct copy.
  cbv beta iota.
  destruct (negb (len header =? len numbers)) eqn:E1; [discriminate |].
  apply negb_false_iff, Z.eqb_eq in E1.
  destruct (if copy then _ else _) as [ds |] eqn:E2; [| discriminate].
  destruct (negb (len header =? len ds)) eqn:E3; [discriminate |].
  apply negb_false_iff, Z.eqb_eq in E3. intros _.
  assert (List.length ds = List.length defaults).
  { destruct copy; [now apply coerce_defaults_length in E2 |].
    now injection E2 as <-. }
  unfold len in *. destruct Hne as [Hne | Hne]; apply Hne; lia.
Qed.

(** Without [copy] they raise one of the two schema errors. *)
Lemma get_header_mismatch_no_copy header defaults numbers :
  List.length header <> List.length numbers \/
  List.length header <> List.length defaults ->
  exists e, _get_header (Some header) defaults (Some numbers) false = Raise e
            /\ SchemaMismatch e.
Proof.
  intros Hne. unfold _get_header. cbv beta iota.
  destruct (len header =? len numbers) eqn:E1; simpl.
  - destruct (len header =? len defaults) eqn:E2; simpl.
    + apply Z.eqb_eq in E1, E2. unfold len in *.
      exfalso. destruct Hne as [Hne | Hne]; apply Hne; lia.
    + eexists. split; [reflexivity | now right].
  - eexists. split; [reflexivity | now left].
Qed.

(** With inferred numeric flags, names and defaults of different lengths
    raise the first schema error: so do three names with two defaults. *)
Lemma get_header_mismatch_inferred header defaults copy :
  List.length header <> List.length defaults ->
  _get_header (Some header) defaults None copy =
  Raise (ValueError header_numbers_msg).
Proof.
  intros Hne. unfold _get_header.
  replace (if copy then OK (Some header) else OK (Some header))
    with (OK (Some header) : result (option (list string)))
    by now destruct copy.
  cbv beta iota. unfold len. rewrite length_map.
  replace (Z.of_nat (List.length header) =? Z.of_nat (List.length defaults))
    with false by (symmetry; apply Z.eqb_neq; lia).
  reflexivity.
Qed.

(** Without [header] the constructor of [SparseLoader] fails on every
    file. *)
Lemma loader_init_without_header_fails fn numbers copy :
  is_OK (fst (SparseLoader.__init__ fn None None numbers copy)) = false.
Proof.
  unfold SparseLoader.__init__, BaseFile.close_on_error, _get_header.
  destruct fn as [| names [| defaults rest]]; destruct copy; reflexivity.
Qed.

(** C2. Without [header], the constructor of [SparseLoader] reads the
    first two lines of the file and then raises [TypeError]: [header] is
    still [None] when it reaches [_get_header]. The file is closed. *)
Theorem loader_init_without_header_raises
        (names defaults : list string) (rest : list (list string))
        (numbers : option (list bool)) (copy : bool) :
  exists msg,
    SparseLoader.__init__ (names :: defaults :: rest) None None numbers copy
    = (Raise (TypeError msg), BaseFile.mk rest false true).
Proof.
  unfold SparseLoader.__init__, BaseFile.close_on_error, _get_header.
  destruct copy; simpl; eexists; reflexivity.
Qed.

(** C8. With [copy], a list [defaults] longer than [numbers] makes
    [_get_header] raise the [IndexError] of [numbers[fix]] before it
    compares the lengths; the constructor of [SparseWriter] closes the
    file and raises that [IndexError], which is no schema mismatch. *)
Theorem get_header_long_defaults_raises_index_error :
  let e := IndexError "list index out of range" in
  _get_header (Some ["a"]) [VStr "x"; VStr "y"] (Some [false]) true
  = Raise e /\
  SparseWriter.__init__ [] ["a"] [VStr "x"; VStr "y"] (Some [false]) true
  = (Raise e, BaseFile.mk [] false true) /\
  ~ SchemaMismatch e.
Proof.
  repeat split. intros [H | H]; discriminate H.
Qed.
End Construction.

(** ** Indexing *)

Lemma list_get_nth {A} (l : list A) (i : Z) :
  0 <= i ->
  list_get l i =
  match nth_error l (Z.to_nat i) with
  | Some a => OK a
  | None => Raise (IndexError "list index out of range")
  end.
Proof.
  intros Hi. unfold list_get.
  replace (i <? 0) with false by (symmetry; apply Z.ltb_ge; lia).
  destruct ((0 <=? i) && (i <? Z.of_nat (List.length l))) eqn:E;
    [reflexivity |].
  replace (nth_error l (Z.to_nat i)) with (@None A); [reflexivity |].
  symmetry. apply nth_error_None.
  apply andb_false_iff in E. destruct E as [E | E].
  - apply Z.leb_gt in E. lia.
  - apply Z.ltb_ge in E. lia.
Qed.

Lemma list_get_in_range {A} (l : list A) (i : Z) :
  0 <= i < len l -> exists a, list_get l i = OK a.
Proof.
  intros Hi. rewrite list_get_nth by lia.
  destruct (nth_error l (Z.to_nat i)) eqn:E; [eauto |].
  apply nth_error_None in E. unfold len in Hi. lia.
Qed.

Lemma list_get_above {A} (l : list A) (i : Z) :
  len l <= i -> list_get l i = Raise (IndexError "list index out of range").
Proof.
  intros Hi. unfold len in Hi. rewrite list_get_nth by lia.
  replace (nth_error l (Z.to_nat i)) with (@None A); [reflexivity |].
  symmetry. apply nth_error_None. lia.
Qed.

Lemma Forall2_list_get {A B} (P : A -> B -> Prop) (l1 : list A)
      (l2 : list B) (i : Z) (a : A) :
  Forall2 P l1 l2 -> 0 <= i -> list_get l1 i = OK a ->
  exists b, list_get l2 i = OK b /\ P a b.
Proof.
  intros HF Hi. rewrite !list_get_nth by exact Hi.
  generalize (Z.to_nat i) as n. clear i Hi.
  induction HF as [| x y l1 l2 Hxy HF IH]; intros [| n]; simpl;
    try discriminate.
  - intros [= <-]. eauto.
  - apply IH.
Qed.

(** ** Restoring a default *)

Section Restore.
Context {T : PyText}.

Lemma set_values_same (self : SparseRow.t) :
  SparseRow.set_values (SparseRow._values self) self = self.
Proof. destruct self; reflexivity. Qed.

Lemma discard_spec (fix_ : Z) (self : SparseRow.t) :
  SparseRow.discard fix_ self =
  (OK tt,
   SparseRow.set_values
     (filter (fun kv => negb (fst kv =? fix_)) (SparseRow._values self))
     self).
Proof.
  unfold SparseRow.discard, dict_del. unfold_monad.
  destruct (dict_has (SparseRow._values self) fix_) eqn:E; [reflexivity |].
  rewrite filter_absent by exact E. now rewrite set_values_same.
Qed.

(** In a valid schema a default is default-equal to itself, NaN
    included. *)
Lemma convert_default (i : Z) (d : value) (self : SparseRow.t) :
  valid_row self -> 0 <= i ->
  list_get (SparseRow._defaults self) i = OK d ->
  SparseRow._convert i d self = (OK (d, true), self).
Proof.
  intros (_ & _ & HF) Hi Hd.
  destruct (Forall2_list_get _ _ _ i d HF Hi Hd) as (isnum & Hn & Ht).
  unfold SparseRow._convert. unfold_monad. rewrite Hd, Hn.
  destruct d as [s | f], isnum; try discriminate Ht; simpl.
  - now rewrite py_eq_str.
  - unfold py_eq. destruct (isnan f) eqn:Ef.
    + destruct f; try discriminate Ef. reflexivity.
    + now rewrite SFeqb_refl.
Qed.

End Restore.

(** ** The elision invariant *)

Section Elision.
Context {T : PyText}.

Lemma elided_empty (self : SparseRow.t) :
  elided (SparseRow.set_values [] self).
Proof. intros k v isnum d []. Qed.

Lemma elided_filter (f : Z * value -> bool) (self : SparseRow.t) :
  elided self ->
  elided (SparseRow.set_values (filter f (SparseRow._values self)) self).
Proof.
  intros He k v isnum d Hin. simpl in *.
  apply filter_In in Hin. apply (He k v isnum d), Hin.
Qed.

Lemma elided_store (k : Z) (v c : value) (self s' : SparseRow.t) :
  elided self ->
  SparseRow._convert k v self = (OK (c, false), s') ->
  elided (snd (SparseRow.store k c self)).
Proof.
  intros He Hc j w isnum d Hin Hn Hd. simpl in *.
  apply dict_set_In in Hin. destruct Hin as [[= -> ->] | Hin].
  - apply convert_default_equal in Hc.
    destruct Hc as (isnum' & d' & Hn' & Hd' & Heq). congruence.
  - apply (He j w isnum d); assumption.
Qed.

(** The step shared by [add] and [from_dense]: convert, then store what
    is not the default. *)
Lemma elided_convert_store (k : Z) (v : value) (self : SparseRow.t) :
  elided self ->
  elided (snd ((c <- SparseRow._convert k v ;;
                if negb (snd c) then SparseRow.store k (fst c) else ret tt)
                 self)).
Proof.
  intros He. unfold_monad.
  pose proof (convert_state k v self) as Hs.
  destruct (SparseRow._convert k v self) as [[[c is_d] |] s1] eqn:E;
    simpl in Hs; subst s1; simpl; [| exact He].
  destruct is_d; simpl; [exact He |].
  apply (elided_store k v c self self He E).
Qed.

Lemma elided_add (fix_ : index_arg) (v : value) (self : SparseRow.t) :
  elided self -> elided (snd (SparseRow.add fix_ v self)).
Proof.
  intros He. unfold SparseRow.add.
  unfold bind at 1. unfold lift at 1.
  destruct (int fix_) as [z |]; [| exact He].
  unfold bind at 1.
  pose proof (check_range_state z self) as Hs.
  destruct (SparseRow._check_range z self) as [[[] |] s1]; simpl in Hs;
    subst s1; [| exact He].
  apply elided_convert_store, He.
Qed.

Lemma elided_add_all (coo : list SparseRow.coo_item) (self : SparseRow.t) :
  elided self -> elided (snd (SparseRow.add_all coo self)).
Proof.
  revert self. induction coo as [| item rest IH]; intros self He;
    [exact He |].
  simpl. unfold bind at 1. unfold lift at 1.
  destruct (SparseRow.unpack item) as [[k v] |]; [| exact He].
  unfold bind at 1. simpl fst; simpl snd.
  pose proof (elided_add k v self He) as Ha.
  destruct (SparseRow.add k v self) as [[[] |] s1]; simpl in Ha;
    [| exact Ha].
  apply IH, Ha.
Qed.

Lemma elided_from_dense_loop (row : list value) (k last : Z)
      (self : SparseRow.t) :
  elided self -> elided (snd (SparseRow.from_dense_loop k row last self)).
Proof.
  revert k last self. induction row as [| v rest IH]; intros k last self He;
    [exact He |].
  simpl.
  pose proof (elided_convert_store k v self He) as Hstep.
  unfold bind at 1. unfold bind at 1 in Hstep.
  destruct (SparseRow._convert k v self) as [[c |] s1]; [| exact Hstep].
  unfold bind at 1.
  destruct ((if negb (snd c) then SparseRow.store k (fst c) else ret tt) s1)
    as [[[] |] s2]; simpl in Hstep; [| exact Hstep].
  apply IH, Hstep.
Qed.

(** Each way to build or change a row gives a row with the invariant. *)
Lemma elision_steps :
  (forall header defaults numbers coo copy self,
      SparseRow.__init__ header defaults numbers coo copy = OK self ->
      elided self) /\
  (forall row self, elided (snd (SparseRow.from_dense row self))) /\
  (forall fix_ v self,
      elided self -> elided (snd (SparseRow.__setitem__ fix_ v self))) /\
  (forall fix_ self,
      elided self -> elided (snd (SparseRow.__delitem__ fix_ self))) /\
  (forall self, elided (snd (SparseRow.clear self))).
Proof.
  repeat apply conj.
  - intros header defaults numbers coo copy self.
    unfold SparseRow.__init__.
    destruct (_get_header _ _ _ _) as [[[h d] n] |]; [| discriminate].
    pose proof (elided_add_all coo (SparseRow.mk h d n [])
                  (elided_empty (SparseRow.mk h d n []))) as He.
    destruct (SparseRow.add_all coo _) as [[[] |] s1]; [| discriminate].
    intros [= <-]. exact He.
  - intros row self. unfold SparseRow.from_dense.
    unfold bind at 1. unfold modify at 1.
    pose proof (elided_from_dense_loop row 0 0 _ (elided_empty self)) as He.
    unfold bind at 1.
    destruct (SparseRow.from_dense_loop 0 row 0 _) as [[last |] s1];
      simpl in He; [| exact He].
    rewrite check_range_state. exact He.
  - intros fix_ v self He. unfold SparseRow.__setitem__.
    unfold bind at 1. unfold lift at 1.
    destruct (int fix_) as [z |]; [| exact He].
    unfold bind at 1.
    pose proof (check_range_state z self) as Hs.
    destruct (SparseRow._check_range z self) as [[[] |] s1]; simpl in Hs;
      subst s1; [| exact He].
    unfold bind at 1.
    pose proof (convert_state z v self) as Hs.
    destruct (SparseRow._convert z v self) as [[[c is_d] |] s1] eqn:E;
      simpl in Hs; subst s1; [| exact He].
    destruct is_d; simpl.
    + rewrite discard_spec. apply elided_filter, He.
    + apply (elided_store z v c self self He E).
  - intros fix_ self He. unfold SparseRow.__delitem__.
    unfold bind at 1. unfold lift at 1.
    destruct (int fix_) as [z |]; [| exact He].
    unfold bind at 1.
    pose proof (check_range_state z self) as Hs.
    destruct (SparseRow._check_range z self) as [[[] |] s1]; simpl in Hs;
      subst s1; [| exact He].
    rewrite discard_spec. apply elided_filter, He.
  - intros self. apply elided_empty.
Qed.

(** C4. Every row, after its construction by [__init__] and after any
    calls of [from_dense], [__setitem__], [__delitem__] and [clear],
    stores no entry that is default-equal to the default of its column
    ([==] or both NaN in a numeric column, [==] in the others), whether
    or not a call raised. *)
Theorem elision_invariant (self : SparseRow.t) :
  reachable self -> elided self.
Proof.
  destruct elision_steps as (Hinit & Hdense & Hset & Hdel & Hclear).
  induction 1 as [h d n coo copy self Hi | row self _ _ | k v self _ IH
                  | k self _ IH | self _ _].
  - exact (Hinit h d n coo copy self Hi).
  - apply Hdense.
  - apply Hset, IH.
  - apply Hdel, IH.
  - apply Hclear.
Qed.
End Elision.

(** ** [from_dense] *)

Section FromDense.
Context {T : PyText}.

(** [_convert] reads the schema only. *)
Lemma convert_set_values (k : Z) (v : value) (d : dict)
      (self : SparseRow.t) :
  SparseRow._convert k v (SparseRow.set_values d self) =
  (fst (SparseRow._convert k v self), SparseRow.set_values d self).
Proof.
  unfold SparseRow._convert. unfold_monad. simpl.
  destruct (list_get (SparseRow._defaults self) k) as [dv |]; simpl;
    [| reflexivity].
  destruct (list_get (SparseRow._numbers self) k) as [[] |]; simpl;
    try reflexivity.
  destruct (np_float64 v) as [f |]; simpl; [| reflexivity].
  destruct (py_eq (VNum f) dv); simpl; [reflexivity |].
  destruct (isnan f); simpl; [| reflexivity].
  destruct (np_isnan dv); reflexivity.
Qed.

Lemma convert_fst (k : Z) (v : value) (self : SparseRow.t) :
  SparseRow._convert k v self = (fst (SparseRow._convert k v self), self).
Proof.
  rewrite <- (convert_state k v self) at 3.
  now destruct (SparseRow._convert k v self).
Qed.

Lemma dict_set_fresh (d : dict) (k : Z) (v : value) :
  (forall kv, In kv d -> fst kv < k) -> dict_set d k v = d ++ [(k, v)].
Proof.
  induction d as [| [k' v'] d IH]; intros H; simpl; [reflexivity |].
  assert (k' < k) by (apply (H (k', v')); now left).
  replace (k' =? k) with false by (symmetry; apply Z.eqb_neq; lia).
  rewrite IH; [reflexivity |]. intros kv Hin. apply H. now right.
Qed.

(** The loop stores the entries [kept], after those of the columns
    before [k]. *)
Lemma from_dense_loop_kept (row : list value) (k last : Z) (d0 : dict)
      (self : SparseRow.t) :
  all_convert self k row ->
  (forall kv, In kv d0 -> fst kv < k) ->
  SparseRow.from_dense_loop k row last (SparseRow.set_values d0 self) =
  (OK (last_index k row last),
   SparseRow.set_values (d0 ++ kept self k row) self).
Proof.
  revert k last d0. induction row as [| v rest IH]; intros k last d0 Hc Hk.
  - simpl. unfold_monad. now rewrite app_nil_r.
  - destruct Hc as [(c & is_d & Hc) Hrest]. simpl.
    unfold bind at 1. rewrite convert_set_values, Hc.
    assert (Hlast : last_index (k + 1) rest k = last_index k (v :: rest) last).
    { unfold last_index, len. destruct rest; simpl List.length; lia. }
    destruct is_d; simpl negb; simpl fst; cbv iota.
    + unfold bind at 1, ret at 1.
      rewrite (IH (k + 1) k d0 Hrest); [now rewrite Hlast |].
      intros kv Hin. specialize (Hk kv Hin). lia.
    + unfold bind at 1, SparseRow.store, modify. simpl.
      rewrite dict_set_fresh by exact Hk.
      change (SparseRow.set_values (d0 ++ [(k, c)])
                (SparseRow.set_values d0 self))
        with (SparseRow.set_values (d0 ++ [(k, c)]) self).
      rewrite (IH (k + 1) k (d0 ++ [(k, c)]) Hrest).
      * rewrite Hlast, <- app_assoc. reflexivity.
      * intros kv Hin. apply in_app_or in Hin.
        destruct Hin as [Hin | [<- | []]]; [specialize (Hk kv Hin) |];
          simpl; lia.
Qed.

Lemma check_range_set_values (k : Z) (d : dict) (self : SparseRow.t) :
  SparseRow._check_range k (SparseRow.set_values d self) =
  (fst (SparseRow._check_range k self), SparseRow.set_values d self).
Proof.
  unfold SparseRow._check_range. unfold_monad. simpl.
  destruct ((k <? 0) || (k >=? len (SparseRow._defaults self)));
    reflexivity.
Qed.

Lemma from_dense_kept (row : list value) (self : SparseRow.t) :
  all_convert self 0 row ->
  SparseRow.from_dense row self =
  (fst (SparseRow._check_range (last_index 0 row 0) self),
   SparseRow.set_values (kept self 0 row) self).
Proof.
  intros Hc. unfold SparseRow.from_dense.
  unfold bind at 1, modify at 1. unfold bind at 1.
  rewrite (from_dense_loop_kept row 0 0 [] self Hc) by (intros kv []).
  simpl app. apply check_range_set_values.
Qed.
End FromDense.

(** ** The stored entries and the dense view *)

Lemma list_get_nat {A} (l : list A) (k : nat) (a : A) :
  list_get l (Z.of_nat k) = OK a <-> nth_error l k = Some a.
Proof.
  rewrite list_get_nth by lia. rewrite Nat2Z.id.
  destruct (nth_error l k); split; intros H; inversion H; reflexivity.
Qed.

Lemma dict_get_absent (d : dict) (k : Z) :
  (forall kv, In kv d -> fst kv <> k) -> dict_get d k = Raise (KeyError k).
Proof.
  induction d as [| [k' v] d IH]; intros H; simpl; [reflexivity |].
  assert (k' <> k) by (apply (H (k', v)); now left).
  replace (k' =? k) with false by (symmetry; now apply Z.eqb_neq).
  apply IH. intros kv Hin. apply H. now right.
Qed.

Section DenseView.
Context {T : PyText}.

(** In a valid schema the conversion of a cell of a column in range
    succeeds when a numeric column gets a value that converts. *)
Lemma convert_OK (k : nat) (v : value) (self : SparseRow.t) :
  valid_row self -> (k < columns self)%nat ->
  (nth_error (SparseRow._numbers self) k = Some true ->
   exists f, np_float64 v = OK f) ->
  exists c is_d, fst (SparseRow._convert (Z.of_nat k) v self) = OK (c, is_d).
Proof.
  intros (_ & _ & HF) Hk Hv.
  destruct (list_get_in_range (SparseRow._defaults self) (Z.of_nat k))
    as [d Hd]; [unfold len, columns in *; lia |].
  destruct (Forall2_list_get _ _ _ _ d HF (Nat2Z.is_nonneg k) Hd)
    as (isnum & Hn & Ht).
  unfold SparseRow._convert. unfold_monad. rewrite Hd, Hn.
  destruct isnum; simpl; [| eauto].
  destruct (Hv (proj1 (list_get_nat _ _ _) Hn)) as [f ->]. simpl.
  destruct d as [s | g]; [discriminate Ht |].
  destruct (py_eq (VNum f) (VNum g)); simpl; [eauto |].
  destruct (isnan f); simpl; eauto.
Qed.

Lemma converts_all_convert (self : SparseRow.t) :
  valid_row self ->
  forall (row : list value) (k : nat),
    (k + List.length row <= columns self)%nat ->
    (forall i v, nth_error row i = Some v ->
                 nth_error (SparseRow._numbers self) (k + i) = Some true ->
                 exists f, np_float64 v = OK f) ->
    all_convert self (Z.of_nat k) row.
Proof.
  intros Hv. induction row as [| v rest IH]; intros k Hk Hc; simpl;
    [exact I |].
  simpl in Hk. split.
  - apply convert_OK; [exact Hv | lia |].
    intros Hn. apply (Hc 0%nat v eq_refl). now rewrite Nat.add_0_r.
  - replace (Z.of_nat k + 1) with (Z.of_nat (S k)) by lia.
    apply IH; [lia |]. intros i w Hw Hn.
    apply (Hc (S i) w Hw). now rewrite Nat.add_succ_r.
Qed.

Lemma kept_keys (self : SparseRow.t) (row : list value) :
  forall k kv, In kv (kept self k row) -> k <= fst kv < k + len row.
Proof.
  unfold len. induction row as [| v rest IH]; intros k kv; simpl;
    [intros [] |].
  assert (Hrest : In kv (kept self (k + 1) rest) ->
                  k <= fst kv < k + Z.pos (Pos.of_succ_nat (List.length rest))).
  { intros Hin. apply IH in Hin. lia. }
  destruct (fst (SparseRow._convert k v self)) as [[c []] |];
    try exact Hrest.
  intros [<- | Hin]; [simpl; lia | exact (Hrest Hin)].
Qed.

Lemma kept_get (self : SparseRow.t) (row : list value) :
  forall k i v,
    nth_error row i = Some v ->
    dict_get (kept self k row) (k + Z.of_nat i) =
    match fst (SparseRow._convert (k + Z.of_nat i) v self) with
    | OK (c, false) => OK c
    | _ => Raise (KeyError (k + Z.of_nat i))
    end.
Proof.
  induction row as [| w rest IH]; intros k [| i] v; simpl;
    try discriminate.
  - intros [= ->]. rewrite Z.add_0_r.
    assert (Habs : dict_get (kept self (k + 1) rest) k = Raise (KeyError k)).
    { apply dict_get_absent. intros kv Hin. apply kept_keys in Hin. lia. }
    destruct (fst (SparseRow._convert k v self)) as [[c []] |];
      try exact Habs.
    simpl. now rewrite Z.eqb_refl.
  - intros Hv.
    replace (k + Z.pos (Pos.of_succ_nat i)) with (k + 1 + Z.of_nat i) by lia.
    specialize (IH (k + 1) i v Hv).
    destruct (fst (SparseRow._convert k w self)) as [[c []] |];
      try exact IH.
    simpl.
    replace (k =? k + 1 + Z.of_nat i) with false
      by (symmetry; apply Z.eqb_neq; lia).
    exact IH.
Qed.

Lemma get_set_values (j : Z) (d : dict) (self : SparseRow.t) :
  SparseRow._get j (SparseRow.set_values d self) =
  (match dict_get d j with
   | OK v => OK v
   | Raise (KeyError _) => list_get (SparseRow._defaults self) j
   | Raise e => Raise e
   end, SparseRow.set_values d self).
Proof.
  unfold SparseRow._get. unfold_monad. simpl.
  destruct (dict_get d j) as [v | []]; reflexivity.
Qed.

Lemma dict_get_raises (d : dict) (j : Z) (e : exn) :
  dict_get d j = Raise e -> e = KeyError j.
Proof.
  induction d as [| [k v] d IH]; simpl; [now intros [= <-] |].
  destruct (k =? j); [discriminate | exact IH].
Qed.

(** [row[j]] is total on the columns. *)
Lemma get_in_range (j : Z) (self : SparseRow.t) :
  0 <= j < len (SparseRow._defaults self) ->
  exists o, fst (SparseRow._get j self) = OK o.
Proof.
  intros Hj. unfold SparseRow._get. unfold_monad.
  destruct (dict_get (SparseRow._values self) j) as [v | e] eqn:E;
    [simpl; eauto |].
  apply dict_get_raises in E. subst e.
  destruct (list_get_in_range _ j Hj) as [d Hd]. simpl. rewrite Hd. eauto.
Qed.

(** The iterator yields [row[k]], ..., [row[N-1]] and stops. *)
Lemma iter_cells (self : SparseRow.t) :
  forall (n fuel k : nat),
    (k + n = columns self)%nat -> (n < fuel)%nat ->
    exists out,
      drain (RowIter.__next__ self) fuel (RowIter.mk (Z.of_nat k)) =
      Some (OK out, RowIter.mk (Z.of_nat (columns self))) /\
      List.length out = n /\
      forall i o, nth_error out i = Some o ->
                  fst (SparseRow._get (Z.of_nat (k + i)) self) = OK o.
Proof.
  induction n as [| n IH]; intros fuel k Hk Hf;
    (destruct fuel as [| fuel]; [lia |]); simpl;
    unfold RowIter.__next__ at 1; unfold_monad; simpl.
  - replace (Z.of_nat k >=? len (SparseRow._defaults self)) with true
      by (symmetry; rewrite Z.geb_leb; apply Z.leb_le;
          unfold len, columns in *; lia).
    exists []. rewrite <- Hk, Nat.add_0_r.
    repeat split. intros [| i] o; discriminate.
  - replace (Z.of_nat k >=? len (SparseRow._defaults self)) with false
      by (symmetry; rewrite Z.geb_leb; apply Z.leb_gt;
          unfold len, columns in *; lia).
    destruct (get_in_range (Z.of_nat k) self) as [o Ho];
      [unfold len, columns in *; lia |].
    rewrite Ho. simpl.
    replace (Z.of_nat k + 1) with (Z.of_nat (S k)) by lia.
    destruct (IH fuel (S k)) as (out & Hd & Hl & Hout); [lia | lia |].
    rewrite Hd. exists (o :: out). repeat split.
    + simpl. now rewrite Hl.
    + intros [| i] o'; simpl.
      * intros [= <-]. now rewrite Nat.add_0_r.
      * intros Hi. rewrite Nat.add_succ_r. apply (Hout i o' Hi).
Qed.
End DenseView.

(** ** The dense view of a row after [from_dense] *)

Section Reproduce.
Context {T : PyText}.

(** The converted value of a cell: the float of the value in a numeric
    column, the value itself in the others. *)
Lemma convert_value (k : Z) (v c : value) (is_d isnum : bool)
      (self : SparseRow.t) :
  fst (SparseRow._convert k v self) = OK (c, is_d) ->
  list_get (SparseRow._numbers self) k = OK isnum ->
  if isnum then exists f, np_float64 v = OK f /\ c = VNum f else c = v.
Proof.
  unfold SparseRow._convert. unfold_monad.
  destruct (list_get (SparseRow._defaults self) k) as [d |]; simpl;
    [| discriminate].
  destruct (list_get (SparseRow._numbers self) k) as [b |]; simpl;
    [| discriminate].
  intros H [= <-]. destruct b.
  - destruct (np_float64 v) as [f |]; simpl in H; [| discriminate].
    exists f. split; [reflexivity |].
    destruct (py_eq (VNum f) d); simpl in H; [now inversion H |].
    destruct (isnan f); simpl in H; [| now inversion H].
    destruct (np_isnan d); simpl in H; now inversion H.
  - now inversion H.
Qed.

Lemma default_equal_float_refl (f : float64) :
  default_equal true (VNum f) (VNum f) = true.
Proof.
  unfold default_equal, py_eq. simpl.
  destruct (isnan f) eqn:E; [apply orb_true_r |].
  now rewrite SFeqb_refl.
Qed.

Lemma py_eq_text (v : value) (s : string) :
  py_eq v (VStr s) = true -> v = VStr s.
Proof.
  destruct v as [t | f]; unfold py_eq; [| discriminate].
  intros H. apply String.eqb_eq in H. now subst.
Qed.

Lemma get_kept_cell (self : SparseRow.t) (row : list value) (i : nat)
      (isnum : bool) (v o c : value) (is_d : bool) :
  valid_row self ->
  nth_error row i = Some v ->
  nth_error (SparseRow._numbers self) i = Some isnum ->
  fst (SparseRow._convert (Z.of_nat i) v self) = OK (c, is_d) ->
  fst (SparseRow._get (Z.of_nat i)
         (SparseRow.set_values (kept self 0 row) self)) = OK o ->
  cell_equal isnum v o.
Proof.
  intros (_ & _ & HF) Hv Hn Hc.
  rewrite get_set_values. simpl fst.
  pose proof (kept_get self row 0 i v Hv) as Hk. simpl in Hk.
  rewrite Hk, Hc. clear Hk.
  apply list_get_nat in Hn.
  pose proof (convert_value _ _ _ _ _ _ Hc Hn) as Hval.
  pose proof (convert_fst (Z.of_nat i) v self) as Hfull.
  rewrite Hc in Hfull. apply convert_default_equal in Hfull.
  destruct Hfull as (isnum' & d & Hn' & Hd & Heq).
  rewrite Hn in Hn'. injection Hn' as <-.
  unfold cell_equal. destruct is_d.
  - rewrite Hd. intros [= <-]. destruct isnum.
    + destruct Hval as (f & Hf & ->). eauto.
    + subst c.
      destruct (Forall2_list_get _ _ _ _ d HF (Nat2Z.is_nonneg i) Hd)
        as (b & Hb & Ht).
      rewrite Hn in Hb. injection Hb as <-.
      destruct d as [s | g]; [| discriminate Ht].
      symmetry. now apply py_eq_text.
  - intros [= <-]. destruct isnum.
    + destruct Hval as (f & Hf & ->). exists f. split; [exact Hf |].
      apply default_equal_float_refl.
    + exact Hval.
Qed.

(** The row that holds the entries [kept] of [row] iterates to a dense
    row that is default-equal to [row]. *)
Lemma kept_dense_equal (self : SparseRow.t) (row : list value)
      (fuel : nat) :
  valid_row self ->
  List.length row = columns self ->
  converts row (SparseRow._numbers self) ->
  (columns self < fuel)%nat ->
  exists out,
    RowIter.to_list (SparseRow.set_values (kept self 0 row) self) fuel =
    Some (OK out) /\
    dense_equal (SparseRow._numbers self) row out.
Proof.
  intros Hv Hl Hc Hf.
  set (self' := SparseRow.set_values (kept self 0 row) self).
  destruct (iter_cells self' (columns self) fuel 0 eq_refl Hf)
    as (out & Hd & Hlen & Hout).
  exists out. unfold RowIter.to_list, RowIter.__init__.
  change 0 with (Z.of_nat 0). rewrite Hd. split; [reflexivity |].
  split; [congruence |].
  intros i isnum v o Hn Hrow Ho.
  assert (Hi : (i < columns self)%nat).
  { rewrite <- Hl. apply nth_error_Some. congruence. }
  destruct (convert_OK i v self Hv Hi) as (c & is_d & Hcv).
  { intros Hnum. apply (Hc i v Hrow Hnum). }
  apply (get_kept_cell self row i isnum v o c is_d Hv Hrow Hn Hcv).
  apply (Hout i o Ho).
Qed.

Lemma converts_from_zero (self : SparseRow.t) (row : list value) :
  valid_row self ->
  (List.length row <= columns self)%nat ->
  converts row (SparseRow._numbers self) ->
  all_convert self 0 row.
Proof.
  intros Hv Hl Hc. change 0 with (Z.of_nat 0).
  apply converts_all_convert; [exact Hv | simpl; lia |].
  intros i v Hrow Hn. apply (Hc i v Hrow Hn).
Qed.

Lemma last_index_in_range (self : SparseRow.t) (row : list value) :
  (0 < columns self)%nat -> (List.length row <= columns self)%nat ->
  0 <= last_index 0 row 0 < len (SparseRow._defaults self).
Proof.
  unfold columns, last_index.
  destruct row; unfold len; simpl List.length; lia.
Qed.

(** C3. For a valid schema of [N] columns and a dense row of length [N]
    whose values for the numeric columns convert, the row as
    [from_dense] leaves it iterates to exactly [N] values that reproduce
    the dense row column by column under the default-equality rule ([==]
    or both NaN in a numeric column, the same value in the others); and
    [from_dense] returns without an error when [N] is not [0]. *)
Theorem from_dense_iter_reproduces (row : list value) (self : SparseRow.t) :
  valid_row self ->
  List.length row = columns self ->
  converts row (SparseRow._numbers self) ->
  ((0 < columns self)%nat -> fst (SparseRow.from_dense row self) = OK tt) /\
  exists out,
    RowIter.to_list (snd (SparseRow.from_dense row self))
      (S (columns self)) = Some (OK out) /\
    List.length out = columns self /\
    dense_equal (SparseRow._numbers self) row out.
Proof.
  intros Hv Hl Hc.
  assert (Hall : all_convert self 0 row)
    by (apply converts_from_zero; [assumption | lia | assumption]).
  rewrite (from_dense_kept row self Hall). simpl fst; simpl snd. split.
  - intros Hpos. rewrite check_range_OK; [reflexivity |].
    apply last_index_in_range; lia.
  - destruct (kept_dense_equal self row (S (columns self)) Hv Hl Hc)
      as (out & Hout & Heq); [lia |].
    exists out.
    split; [exact Hout | split; [destruct Heq; congruence | exact Heq]].
Qed.
End Reproduce.

(** ** The length that [from_dense] accepts *)

Section DenseLength.
Context {T : PyText}.

(** A row that reaches past the last column raises the [IndexError] of
    [self._defaults[fix]]. *)
Lemma from_dense_loop_too_long (self : SparseRow.t) :
  valid_row self ->
  forall (row : list value) (k : nat) (last : Z) (d0 : dict),
    (k <= columns self)%nat ->
    (columns self < k + List.length row)%nat ->
    (forall i v, nth_error row i = Some v ->
                 nth_error (SparseRow._numbers self) (k + i) = Some true ->
                 exists f, np_float64 v = OK f) ->
    exists e,
      fst (SparseRow.from_dense_loop (Z.of_nat k) row last
             (SparseRow.set_values d0 self)) = Raise e /\
      OutOfRange e.
Proof.
  intros Hv. induction row as [| v rest IH]; intros k last d0 Hk Hl Hc;
    simpl in Hl; [lia |].
  simpl. unfold bind at 1. rewrite convert_set_values.
  destruct (Nat.eq_dec k (columns self)) as [-> | Hne].
  - unfold SparseRow._convert. unfold_monad.
    rewrite list_get_above by (unfold len, columns; lia).
    simpl. eexists. split; [reflexivity | eexists; reflexivity].
  - destruct (convert_OK k v self Hv) as (c & is_d & Hcv); [lia | |].
    { intros Hn. apply (Hc 0%nat v eq_refl). now rewrite Nat.add_0_r. }
    rewrite Hcv. unfold bind at 1.
    replace (Z.of_nat k + 1) with (Z.of_nat (S k)) by lia.
    assert (Hrest : forall i w,
               nth_error rest i = Some w ->
               nth_error (SparseRow._numbers self) (S k + i) = Some true ->
               exists f, np_float64 w = OK f).
    { intros i w Hw Hn. apply (Hc (S i) w Hw). now rewrite Nat.add_succ_r. }
    destruct is_d; cbn [negb fst snd]; cbv iota.
    + unfold ret. apply IH; [lia | lia | exact Hrest].
    + unfold SparseRow.store, modify.
      change (SparseRow.set_values ?d (SparseRow.set_values d0 self))
        with (SparseRow.set_values d self).
      apply IH; [lia | lia | exact Hrest].
Qed.

(** C6, as the code has it. Over a valid schema of [N >= 1] columns and
    for values that convert: [from_dense] raises an [IndexError] when the
    row is longer than [N]; it returns without an error when the row has
    at most [N] values, and the columns that a shorter row does not reach
    read as their defaults. *)
Theorem from_dense_length (row : list value) (self : SparseRow.t) :
  valid_row self ->
  (0 < columns self)%nat ->
  converts row (SparseRow._numbers self) ->
  ((columns self < List.length row)%nat ->
   exists e, fst (SparseRow.from_dense row self) = Raise e /\ OutOfRange e) /\
  ((List.length row <= columns self)%nat ->
   fst (SparseRow.from_dense row self) = OK tt /\
   forall (j : nat) (d : value),
     (List.length row <= j)%nat ->
     list_get (SparseRow._defaults self) (Z.of_nat j) = OK d ->
     SparseRow.__getitem__ (IxInt (Z.of_nat j))
       (snd (SparseRow.from_dense row self)) =
     (OK d, snd (SparseRow.from_dense row self))).
Proof.
  intros Hv Hpos Hc. split.
  - intros Hlong. unfold SparseRow.from_dense.
    unfold bind at 1, modify at 1. unfold bind at 1.
    destruct (from_dense_loop_too_long self Hv row 0 0 [])
      as (e & He & Hr); [lia | simpl; lia | exact Hc |].
    simpl Z.of_nat in He.
    destruct (SparseRow.from_dense_loop 0 row 0 _) as [r s1].
    simpl in He. subst r. exists e. split; [reflexivity | exact Hr].
  - intros Hshort.
    rewrite (from_dense_kept row self (converts_from_zero self row Hv Hshort Hc)).
    simpl fst; simpl snd. split.
    + rewrite check_range_OK; [reflexivity |].
      now apply last_index_in_range.
    + intros j d Hj Hd.
      unfold SparseRow.__getitem__. unfold_monad. simpl.
      rewrite get_set_values.
      rewrite dict_get_absent; [now rewrite Hd |].
      intros kv Hin. apply kept_keys in Hin. unfold len in Hin. lia.
Qed.
End DenseLength.

(** The row [5.0] of one value is accepted over the three columns of the
    scenario. *)
Lemma from_dense_short_row_accepted :
  List.length [VNum five] <> columns (abc_row []) /\
  SparseRow.from_dense (T := Literals.text) [VNum five] (abc_row []) =
  (OK tt, abc_row [(0, VNum five)]).
Proof. split; [discriminate | reflexivity]. Qed.

(** Without columns, the empty row is refused. *)
Example from_dense_no_columns :
  SparseRow.from_dense (T := Literals.text) [] (SparseRow.mk [] [] [] []) =
  (Raise (IndexError "index out of bounds: 0"), SparseRow.mk [] [] [] []).
Proof. reflexivity. Qed.

(** ** Tokens *)


Section Tokens.
Context {T : PyText}.





End Tokens.

(** ** Writing dense rows and loading them *)

Lemma drain_step {St A} (next : M St A) (fuel : nat) (it : St) :
  drain next (S fuel) it =
  match next it with
  | (Raise StopIteration, it') => Some (OK [], it')
  | (Raise e, it') => Some (Raise e, it')
  | (OK a, it') =>
      match drain next fuel it' with
      | Some (OK l, it'') => Some (OK (a :: l), it'')
      | other => other
      end
  end.
Proof. reflexivity. Qed.





Section WriteLoad.
Context {T : PyText}.
Variable w : SparseWriter.t.

Hypothesis schema_valid :
  valid_schema (SparseWriter._header w) (SparseWriter._defaults w)
    (SparseWriter._numbers w).
Hypothesis some_column : (0 < List.length (SparseWriter._defaults w))%nat.
Hypothesis int_text :
  forall k, 0 <= k < len (SparseWriter._defaults w) ->
            parse_int (str_int k) = Some k.







End WriteLoad.


(** ** The model on the examples *)


Lemma abc_valid : valid_schema abc_header abc_defaults abc_numbers.
Proof. repeat split; repeat constructor. Qed.


(** The constructor of the writer gives the writers of the examples. *)
Example writer_init_abc :
  SparseWriter.__init__ (T := Literals.text) [] abc_header
    [VStr "0.0"; VStr "x"; VStr "1.0"] None true =
  (OK abc_writer, SparseWriter.base abc_writer).
Proof. reflexivity. Qed.

Example writer_init_zero :
  SparseWriter.__init__ (T := Literals.text) [] ["a"] [VNum pos_zero] None true
  = (OK zero_writer, SparseWriter.base zero_writer).
Proof. reflexivity. Qed.

(** The scenario of the specification: the dense row [5.0, "x", 1.0] is
    written as the one token of column [0]; with the default NaN for
    column [c], the dense row [0.0, "y", NaN] is written as the one token
    of column [1], and is read back as [0.0, "y", NaN]. *)
Example scenario_lines :
  dense_line (T := Literals.text) abc_writer [VNum five; VStr "x"; VNum one]
  = ["0:5.0"] /\
  dense_line (T := Literals.text) nan_writer
    [VNum pos_zero; VStr "y"; VNum nan] = ["1:y"] /\
  option_map
    (fun r => match r with
              | OK [row] => RowIter.to_list row 4
              | _ => None
              end)
    (SparseLoader.to_list (T := Literals.text) (loader_of nan_writer [["1:y"]])
       2)
  = Some (Some (OK [VNum pos_zero; VStr "y"; VNum nan])).
Proof. repeat split. Qed.

(** An empty line is read as the row of the defaults. *)
Example empty_line_defaults :
  SparseLoader.__next__ (T := Literals.text) (loader_of abc_writer [[]]) =
  (OK (abc_row []), loader_of abc_writer []) /\
  RowIter.to_list (abc_row []) 4 = Some (OK abc_defaults).
Proof. split; reflexivity. Qed.



(** The dense row ["5.0", "x", NaN] on a row of the scenario that holds an
    entry. *)
Lemma from_dense_iter_reproduces_witness :
  let row := [VStr "5.0"; VStr "x"; VNum nan] in
  let self := abc_row [(1, VStr "z")] in
  ((0 < columns self)%nat ->
   fst (SparseRow.from_dense (T := Literals.text) row self) = OK tt) /\
  exists out,
    RowIter.to_list (snd (SparseRow.from_dense (T := Literals.text) row self))
      (S (columns self)) = Some (OK out) /\
    List.length out = columns self /\
    dense_equal (T := Literals.text) (SparseRow._numbers self) row out.
Proof.
  apply (from_dense_iter_reproduces (T := Literals.text)
           [VStr "5.0"; VStr "x"; VNum nan] (abc_row [(1, VStr "z")])).
  - exact abc_valid.
  - reflexivity.
  - intros [| [| [| [| i]]]] v Hrow Hn; simpl in Hrow, Hn;
      try discriminate; injection Hrow as <-; eexists; reflexivity.
Defined.

(** A row of the scenario: built with two entries, then column [2] set to
    [5.0] and column [0] deleted. *)
Lemma elision_invariant_witness :
  elided (abc_row [(2, VNum five)]).
Proof.
  apply (elision_invariant (T := Literals.text)).
  change (reachable (T := Literals.text)
            (snd (SparseRow.__delitem__ (T := Literals.text) (IxInt 0)
                    (abc_row [(0, VNum five); (2, VNum five)])))).
  apply reach_delitem.
  change (reachable (T := Literals.text)
            (snd (SparseRow.__setitem__ (T := Literals.text) (IxInt 2)
                    (VStr "5.0") (abc_row [(0, VNum five)])))).
  apply reach_setitem.
  apply (reach_init abc_header abc_defaults (Some abc_numbers)
           [SparseRow.Pair (IxInt 0) (VNum five);
            SparseRow.Pair (IxInt 2) (VStr "1.0")] true).
  reflexivity.
Defined.

(** Over the three columns of the scenario: the row of one value. *)
Lemma from_dense_length_witness :
  let row := [VNum five] in
  let self := abc_row [] in
  ((columns self < List.length row)%nat ->
   exists e, fst (SparseRow.from_dense (T := Literals.text) row self) = Raise e
             /\ OutOfRange e) /\
  ((List.length row <= columns self)%nat ->
   fst (SparseRow.from_dense (T := Literals.text) row self) = OK tt /\
   forall (j : nat) (d : value),
     (List.length row <= j)%nat ->
     list_get (SparseRow._defaults self) (Z.of_nat j) = OK d ->
     SparseRow.__getitem__ (T := Literals.text) (IxInt (Z.of_nat j))
       (snd (SparseRow.from_dense (T := Literals.text) row self)) =
     (OK d, snd (SparseRow.from_dense (T := Literals.text) row self))).
Proof.
  apply (from_dense_length (T := Literals.text) [VNum five] (abc_row [])).
  - exact abc_valid.
  - unfold columns. simpl. lia.
  - intros [| i] v Hrow Hn; simpl in Hrow;
      [injection Hrow as <-; eexists; reflexivity | destruct i; discriminate].
Defined.

(** A row of four values over the three columns is refused. *)
Example from_dense_long_row :
  SparseRow.from_dense (T := Literals.text)
    [VNum five; VStr "x"; VNum one; VNum one] (abc_row []) =
  (Raise (IndexError "list index out of range"), abc_row [(0, VNum five)]).
Proof. reflexivity. Qed.

(** ** The keys of the stored entries, and reads out of range *)

Section KeysInRange.
Context {T : PyText}.

Lemma check_range_inv (k : Z) (self s : SparseRow.t) :
  SparseRow._check_range k self = (OK tt, s) ->
  0 <= k < len (SparseRow._defaults self).
Proof.
  unfold SparseRow._check_range. unfold_monad.
  destruct ((k <? 0) || (k >=? len (SparseRow._defaults self))) eqn:E;
    [discriminate |].
  intros _. apply orb_false_iff in E. destruct E as [E1 E2].
  apply Z.ltb_ge in E1. rewrite Z.geb_leb in E2. apply Z.leb_gt in E2. lia.
Qed.

Lemma convert_inv (k : Z) (v : value) (r : value * bool)
      (self : SparseRow.t) :
  fst (SparseRow._convert k v self) = OK r -> 0 <= k ->
  k < len (SparseRow._defaults self).
Proof.
  intros H Hk.
  destruct (Z.lt_ge_cases k (len (SparseRow._defaults self))) as [Hlt | Hge];
    [exact Hlt |].
  revert H. unfold SparseRow._convert. unfold_monad.
  now rewrite list_get_above by exact Hge.
Qed.

Lemma keys_store (k : Z) (c : value) (self : SparseRow.t) :
  keys_in_range self -> 0 <= k < len (SparseRow._defaults self) ->
  keys_in_range (snd (SparseRow.store k c self)).
Proof.
  intros Hr Hk kv Hin. simpl in *. apply dict_set_In in Hin.
  destruct Hin as [-> | Hin]; [exact Hk | exact (Hr kv Hin)].
Qed.

Lemma keys_discard (k : Z) (self : SparseRow.t) :
  keys_in_range self -> keys_in_range (snd (SparseRow.discard k self)).
Proof.
  intros Hr kv. rewrite discard_spec. simpl. intros Hin.
  apply filter_In in Hin. apply (Hr kv), Hin.
Qed.

Lemma keys_add (fix_ : index_arg) (v : value) (self : SparseRow.t) :
  keys_in_range self -> keys_in_range (snd (SparseRow.add fix_ v self)).
Proof.
  intros Hr. unfold SparseRow.add.
  unfold bind at 1. unfold lift at 1.
  destruct (int fix_) as [z |]; [| exact Hr].
  unfold bind at 1.
  pose proof (check_range_state z self) as Hs.
  destruct (SparseRow._check_range z self) as [[[] |] s1] eqn:E; simpl in Hs;
    subst s1; [| exact Hr].
  apply check_range_inv in E.
  unfold bind at 1. rewrite convert_fst.
  destruct (fst (SparseRow._convert z v self)) as [[c []] |]; simpl;
    try exact Hr.
  apply (keys_store z c self Hr E).
Qed.

Lemma keys_add_all (coo : list SparseRow.coo_item) (self : SparseRow.t) :
  keys_in_range self -> keys_in_range (snd (SparseRow.add_all coo self)).
Proof.
  revert self. induction coo as [| item rest IH]; intros self Hr;
    [exact Hr |].
  simpl. unfold bind at 1. unfold lift at 1.
  destruct (SparseRow.unpack item) as [[k v] |]; [| exact Hr].
  unfold bind at 1. simpl fst; simpl snd.
  pose proof (keys_add k v self Hr) as Ha.
  destruct (SparseRow.add k v self) as [[[] |] s1]; simpl in Ha;
    [| exact Ha].
  apply IH, Ha.
Qed.

Lemma keys_from_dense_loop (row : list value) :
  forall (k last : Z) (self : SparseRow.t),
    0 <= k -> keys_in_range self ->
    keys_in_range (snd (SparseRow.from_dense_loop k row last self)).
Proof.
  induction row as [| v rest IH]; intros k last self Hk Hr; [exact Hr |].
  simpl. unfold bind at 1. rewrite convert_fst.
  destruct (fst (SparseRow._convert k v self)) as [[c is_d] |] eqn:E;
    [| exact Hr].
  apply convert_inv in E; [| exact Hk].
  unfold bind at 1. destruct is_d; simpl.
  - apply IH; [lia | exact Hr].
  - apply IH; [lia |]. apply (keys_store k c self Hr). lia.
Qed.

(** The entries of a row belong to its columns. *)
Lemma reachable_keys (self : SparseRow.t) :
  reachable self -> keys_in_range self.
Proof.
  induction 1 as [h d n coo copy self Hi | row self _ IH | k v self _ IH
                  | k self _ IH | self _ _].
  - revert Hi. unfold SparseRow.__init__.
    destruct (_get_header _ _ _ _) as [[[h' d'] n'] |]; [| discriminate].
    pose proof (keys_add_all coo (SparseRow.mk h' d' n' [])) as Ha.
    destruct (SparseRow.add_all coo _) as [[[] |] s1]; [| discriminate].
    intros [= <-]. apply Ha. intros kv [].
  - unfold SparseRow.from_dense.
    unfold bind at 1, modify at 1. unfold bind at 1.
    pose proof (keys_from_dense_loop row 0 0 (SparseRow.set_values [] self))
      as Hl.
    destruct (SparseRow.from_dense_loop 0 row 0 _) as [[last |] s1];
      simpl in Hl.
    + rewrite check_range_state. apply Hl; [lia | intros kv []].
    + apply Hl; [lia | intros kv []].
  - unfold SparseRow.__setitem__.
    unfold bind at 1. unfold lift at 1.
    destruct (int k) as [z |]; [| exact IH].
    unfold bind at 1.
    pose proof (check_range_state z self) as Hs.
    destruct (SparseRow._check_range z self) as [[[] |] s1] eqn:E;
      simpl in Hs; subst s1; [| exact IH].
    apply check_range_inv in E.
    unfold bind at 1. rewrite convert_fst.
    destruct (fst (SparseRow._convert z v self)) as [[c []] |]; simpl;
      try exact IH.
    + apply keys_discard, IH.
    + apply (keys_store z c self IH E).
  - unfold SparseRow.__delitem__.
    unfold bind at 1. unfold lift at 1.
    destruct (int k) as [z |]; [| exact IH].
    unfold bind at 1.
    pose proof (check_range_state z self) as Hs.
    destruct (SparseRow._check_range z self) as [[[] |] s1];
      simpl in Hs; subst s1; [| exact IH].
    apply keys_discard, IH.
  - intros kv [].
Qed.

(** Reading a column at or after [N], or before [-N], raises the
    [IndexError] of the list of defaults. *)
Lemma getitem_far_out_of_range (i : Z) (self : SparseRow.t) :
  reachable self ->
  len (SparseRow._defaults self) <= i \/ i < - len (SparseRow._defaults self) ->
  exists e, SparseRow.__getitem__ (IxInt i) self = (Raise e, self) /\
            OutOfRange e.
Proof.
  intros Hr Hi. apply reachable_keys in Hr.
  unfold SparseRow.__getitem__, SparseRow._get. unfold_monad. simpl.
  rewrite dict_get_absent.
  - assert (Hg : list_get (SparseRow._defaults self) i =
                 Raise (IndexError "list index out of range")).
    { destruct Hi as [Hi | Hi]; [now apply list_get_above |].
      unfold list_get. unfold len in Hi.
      replace (i <? 0) with true by (symmetry; apply Z.ltb_lt; lia).
      replace (0 <=? i + Z.of_nat (List.length (SparseRow._defaults self)))
        with false by (symmetry; apply Z.leb_gt; lia).
      reflexivity. }
    rewrite Hg. eexists. split; [reflexivity | eexists; reflexivity].
  - intros kv Hin Heq. specialize (Hr kv Hin). unfold len in *. lia.
Qed.

(** Reading a column between [-N] and [-1] gives the default of the
    column [N + i]. *)
Lemma getitem_negative (i : Z) (self : SparseRow.t) :
  reachable self ->
  - len (SparseRow._defaults self) <= i < 0 ->
  SparseRow.__getitem__ (IxInt i) self =
  (list_get (SparseRow._defaults self) (i + len (SparseRow._defaults self)),
   self).
Proof.
  intros Hr Hi. apply reachable_keys in Hr.
  unfold SparseRow.__getitem__, SparseRow._get. unfold_monad. simpl.
  rewrite dict_get_absent.
  - f_equal. unfold list_get, len in *.
    replace (i <? 0) with true by (symmetry; apply Z.ltb_lt; lia).
    replace (i + Z.of_nat (List.length (SparseRow._defaults self)) <? 0)
      with false by (symmetry; apply Z.ltb_ge; lia).
    reflexivity.
  - intros kv Hin Heq. specialize (Hr kv Hin). lia.
Qed.
End KeysInRange.

(** With the schema given, the loader starts at the first line of the
    file: on a file of the writer it takes the line of the names for a
    row. *)
Example loader_with_schema_reads_names :
  let fn := [abc_header; ["0.0"; "x"; "1.0"]] in
  reread (BaseFile.lines (SparseWriter.base abc_writer)) = Some fn /\
  SparseLoader.__init__ (T := Literals.text) fn
    (Some abc_header) (Some abc_defaults) (Some abc_numbers) true
  = (OK (loader_of abc_writer fn), BaseFile.__init__ fn false) /\
  fst (SparseLoader.__next__ (T := Literals.text) (loader_of abc_writer fn)) =
  Raise (ValueError "not enough values to unpack (expected 2)").
Proof. repeat split. Qed.

(** A row that stores a default, here [-0.0] for the default [0.0], does
    not have the elision invariant. *)
Example stored_default_not_elided :
  ~ elided (abc_row [(0, VNum neg_zero)]).
Proof.
  intros H.
  specialize (H 0 (VNum neg_zero) true (VNum pos_zero) (or_introl eq_refl)
                eq_refl eq_refl).
  discriminate H.
Qed.

(** ** The schema that [_get_header] builds *)

Section SchemaBuild.
Context {T : PyText}.

Lemma coerce_defaults_inferred (rest pre : list value) :
  coerce_defaults (map _is_num (pre ++ rest)) (len pre) rest =
  OK (map (fun d => match np_float64 d with
                    | OK f => VNum f
                    | Raise _ => d
                    end) rest).
Proof.
  revert pre. induction rest as [| v rest IH]; intros pre; [reflexivity |].
  simpl coerce_defaults.
  assert (Hn : list_get (map _is_num (pre ++ v :: rest)) (len pre)
               = OK (_is_num v)).
  { unfold len. apply list_get_nat.
    rewrite nth_error_map, nth_error_app2, Nat.sub_diag by lia. reflexivity. }
  rewrite Hn.
  replace (len pre + 1) with (len (pre ++ [v]))
    by (unfold len; rewrite length_app; simpl; lia).
  replace (pre ++ v :: rest) with ((pre ++ [v]) ++ rest)
    by (now rewrite <- app_assoc).
  rewrite IH. simpl map. unfold _is_num.
  destruct (np_float64 v); reflexivity.
Qed.

(** X1. With the numeric flags inferred and [copy], [_get_header] succeeds
    exactly when there are as many names as defaults: a column is numeric
    when its default converts to a float, and then the default is stored
    as that float; the other defaults are kept. With different lengths it
    raises the [ValueError] of the first length check. *)
Theorem get_header_inferred (header : list string) (defaults : list value) :
  (List.length header = List.length defaults ->
   _get_header (Some header) defaults None true =
   OK (header,
       map (fun d => match np_float64 d with
                     | OK f => VNum f
                     | Raise _ => d
                     end) defaults,
       map _is_num defaults)) /\
  (List.length header <> List.length defaults ->
   _get_header (Some header) defaults None true =
   Raise (ValueError header_numbers_msg)).
Proof.
  split; intros Hl; unfold _get_header; cbv beta iota zeta; unfold len;
    rewrite length_map.
  - rewrite Hl, Z.eqb_refl. simpl negb. cbv iota.
    pose proof (coerce_defaults_inferred defaults []) as Hc.
    change (len []) with 0 in Hc. change ([] ++ defaults) with defaults in Hc.
    rewrite Hc.
    unfold len. rewrite length_map, Z.eqb_refl. reflexivity.
  - replace (Z.of_nat (List.length header) =? Z.of_nat (List.length defaults))
      with false by (symmetry; apply Z.eqb_neq; lia).
    reflexivity.
Qed.

Lemma coerce_defaults_idem (numbers : list bool) (defaults : list value) :
  forall fix_ ds,
    coerce_defaults numbers fix_ defaults = OK ds ->
    coerce_defaults numbers fix_ ds = OK ds.
Proof.
  induction defaults as [| d rest IH]; intros k ds; simpl.
  - now intros [= <-].
  - destruct (list_get numbers k) as [isnum |] eqn:En; [| discriminate].
    destruct (coerce_defaults numbers (k + 1) rest) as [rest' |] eqn:E.
    + destruct isnum.
      * destruct (np_float64 d) as [f |]; [| discriminate].
        intros [= <-]. simpl. rewrite En. simpl. now rewrite (IH _ _ E).
      * intros [= <-]. simpl. rewrite En. now rewrite (IH _ _ E).
    + destruct isnum; [destruct (np_float64 d) |]; discriminate.
Qed.

Lemma get_header_same_lengths (h : list string) (d : list value)
      (n : list bool) :
  List.length h = List.length n -> List.length h = List.length d ->
  _get_header (Some h) d (Some n) false = OK (h, d, n).
Proof.
  intros Hn Hd. unfold _get_header. cbv beta iota zeta. unfold len.
  rewrite <- Hn, Z.eqb_refl. simpl negb. cbv iota.
  rewrite <- Hd, Z.eqb_refl. reflexivity.
Qed.

(** X2. A schema that [_get_header] has returned passes [_get_header]
    again unchanged: without [copy] always, and with [copy] when the first
    call was made with [copy] (its numeric defaults are floats already).
    So [get_empty_row] and the loader's [__next__], which validate the
    stored schema again for every row, do not fail on it. *)
Theorem get_header_revalidate
        (header : option (list string)) (defaults : list value)
        (numbers : option (list bool)) (copy copy' : bool)
        (h : list string) (d : list value) (n : list bool) :
  _get_header header defaults numbers copy = OK (h, d, n) ->
  copy = true \/ copy' = false ->
  _get_header (Some h) d (Some n) copy' = OK (h, d, n).
Proof.
  intros H Hc.
  destruct (get_header_lengths _ _ _ _ _ _ _ H) as [Hn Hd].
  destruct copy'; [| now apply get_header_same_lengths].
  destruct Hc as [-> | Hc]; [| discriminate].
  revert H. unfold _get_header.
  destruct header as [hd |]; [| discriminate]. cbv beta iota zeta.
  set (ns := match numbers with None => map _is_num defaults | Some l => l end).
  destruct (negb (len hd =? len ns)); [discriminate |].
  destruct (coerce_defaults ns 0 defaults) as [ds |] eqn:Ec; [| discriminate].
  destruct (negb (len hd =? len ds)); [discriminate |].
  intros [= <- <- <-]. unfold len.
  rewrite <- Hn, Z.eqb_refl. simpl negb. cbv iota.
  rewrite (coerce_defaults_idem _ _ _ _ Ec).
  rewrite <- Hd, Z.eqb_refl. reflexivity.
Qed.

(** X4. The constructor of [SparseWriter] fails exactly when [_get_header]
    fails, with the same exception, and then the file is closed and no
    line was written; when it succeeds the file is open and holds two
    lines, the names and the texts of the defaults, and the writer keeps
    the schema that [_get_header] returned. *)
Theorem writer_init_outcome
        (fn : list (list string)) (header : list string)
        (defaults : list value) (numbers : option (list bool))
        (copy : bool) :
  match _get_header (Some header) defaults numbers copy with
  | OK (h, d, n) =>
      let f := BaseFile.mk [h; map str d] true false in
      SparseWriter.__init__ fn header defaults numbers copy =
      (OK (SparseWriter.mk f h d n), f)
  | Raise e =>
      SparseWriter.__init__ fn header defaults numbers copy =
      (Raise e, BaseFile.mk [] false true)
  end.
Proof.
  unfold SparseWriter.__init__, BaseFile.close_on_error. unfold_monad.
  destruct (_get_header (Some header) defaults numbers copy)
    as [[[h d] n] |]; reflexivity.
Qed.

(** X5. With [header] given and [defaults] omitted, the constructor of
    [SparseLoader] takes the first line of the file for the texts of the
    defaults and leaves the other lines for the rows; on an empty file it
    raises [StopIteration], and whenever it raises the file is closed. *)
Theorem loader_init_reads_defaults
        (fn : list (list string)) (header : list string)
        (numbers : option (list bool)) (copy : bool) :
  match fn with
  | [] =>
      SparseLoader.__init__ fn (Some header) None numbers copy =
      (Raise StopIteration, BaseFile.mk [] false true)
  | line :: rest =>
      match _get_header (Some header) (map VStr line) numbers copy with
      | OK (h, d, n) =>
          let f := BaseFile.mk rest true false in
          SparseLoader.__init__ fn (Some header) None numbers copy =
          (OK (SparseLoader.mk f h d n), f)
      | Raise e =>
          SparseLoader.__init__ fn (Some header) None numbers copy =
          (Raise e, BaseFile.mk rest false true)
      end
  end.
Proof.
  unfold SparseLoader.__init__, BaseFile.close_on_error. unfold_monad.
  destruct fn as [| line rest]; [reflexivity |]. simpl.
  destruct (_get_header (Some header) (map VStr line) numbers copy)
    as [[[h d] n] |]; reflexivity.
Qed.
End SchemaBuild.

(** ** Reading after writing *)

Lemma dict_get_set_same (d : dict) (k : Z) (v : value) :
  dict_get (dict_set d k v) k = OK v.
Proof.
  induction d as [| [k' v'] d IH]; simpl.
  - now rewrite Z.eqb_refl.
  - destruct (k' =? k) eqn:E; simpl; [now rewrite Z.eqb_refl |].
    now rewrite E.
Qed.

Lemma dict_get_set_other (d : dict) (k j : Z) (v : value) :
  j <> k -> dict_get (dict_set d k v) j = dict_get d j.
Proof.
  intros Hj. induction d as [| [k' v'] d IH]; simpl.
  - replace (k =? j) with false by (symmetry; apply Z.eqb_neq; lia).
    reflexivity.
  - destruct (k' =? k) eqn:E; simpl.
    + apply Z.eqb_eq in E. subst k'.
      replace (k =? j) with false by (symmetry; apply Z.eqb_neq; lia).
      reflexivity.
    + now rewrite IH.
Qed.

Lemma dict_get_filter_other (d : dict) (k j : Z) :
  j <> k ->
  dict_get (filter (fun kv => negb (fst kv =? k)) d) j = dict_get d j.
Proof.
  intros Hj. induction d as [| [k' v'] d IH]; simpl; [reflexivity |].
  destruct (k' =? k) eqn:E; simpl.
  - apply Z.eqb_eq in E. subst k'.
    replace (k =? j) with false by (symmetry; apply Z.eqb_neq; lia).
    exact IH.
  - now rewrite IH.
Qed.

Lemma dict_get_filter_same (d : dict) (k : Z) :
  dict_get (filter (fun kv => negb (fst kv =? k)) d) k = Raise (KeyError k).
Proof. apply dict_get_has, dict_has_filter. Qed.

Lemma nth_error_same {A} (l l' : list A) :
  List.length l = List.length l' ->
  (forall i a a', nth_error l i = Some a -> nth_error l' i = Some a' -> a = a')
  -> l = l'.
Proof.
  revert l'. induction l as [| x l IH]; intros [| y l'] Hl H;
    try discriminate; [reflexivity |].
  f_equal.
  - apply (H 0%nat); reflexivity.
  - apply IH; [now injection Hl |].
    intros i a a' Ha Ha'. apply (H (S i)); assumption.
Qed.

Section ReadWrite.
Context {T : PyText}.

Lemma getitem_get (j : Z) (self : SparseRow.t) :
  SparseRow.__getitem__ (IxInt j) self = SparseRow._get j self.
Proof. reflexivity. Qed.

Lemma get_state (j : Z) (self : SparseRow.t) :
  snd (SparseRow._get j self) = self.
Proof.
  unfold SparseRow._get. unfold_monad.
  destruct (dict_get (SparseRow._values self) j) as [v | []]; reflexivity.
Qed.

Lemma get_fst (j : Z) (self : SparseRow.t) :
  fst (SparseRow._get j self) =
  match dict_get (SparseRow._values self) j with
  | OK v => OK v
  | Raise (KeyError _) => list_get (SparseRow._defaults self) j
  | Raise e => Raise e
  end.
Proof.
  rewrite <- (set_values_same self) at 1. now rewrite get_set_values.
Qed.

(** The row after a call of [__setitem__] that returns. *)
Lemma setitem_OK (i : Z) (v : value) (self self' : SparseRow.t) :
  SparseRow.__setitem__ (IxInt i) v self = (OK tt, self') ->
  0 <= i < len (SparseRow._defaults self) /\
  exists c is_d,
    fst (SparseRow._convert i v self) = OK (c, is_d) /\
    self' =
    SparseRow.set_values
      (if is_d
       then filter (fun kv => negb (fst kv =? i)) (SparseRow._values self)
       else dict_set (SparseRow._values self) i c) self.
Proof.
  unfold SparseRow.__setitem__.
  unfold bind at 1. unfold lift at 1. simpl int. cbv iota.
  unfold bind at 1.
  pose proof (check_range_state i self) as Hs.
  destruct (SparseRow._check_range i self) as [[[] |] s1] eqn:E;
    simpl in Hs; subst s1; [| discriminate].
  apply check_range_inv in E.
  unfold bind at 1. rewrite convert_fst.
  destruct (fst (SparseRow._convert i v self)) as [[c is_d] |];
    [| discriminate].
  cbn [fst snd]. intros H. split; [exact E |].
  exists c, is_d. split; [reflexivity |].
  destruct is_d; cbv iota in H.
  - rewrite discard_spec in H. now injection H as <-.
  - unfold SparseRow.store, modify in H. now injection H as <-.
Qed.

(** X6. After [row[i] = v] has returned, [row[i]] is the converted value
    of [v], or the default of column [i] when that value is default-equal;
    every other index reads as before. *)
Theorem setitem_then_getitem (i : Z) (v : value)
        (self self' : SparseRow.t) :
  SparseRow.__setitem__ (IxInt i) v self = (OK tt, self') ->
  (exists c is_d,
      fst (SparseRow._convert i v self) = OK (c, is_d) /\
      fst (SparseRow.__getitem__ (IxInt i) self') =
      if is_d then list_get (SparseRow._defaults self) i else OK c) /\
  (forall j, j <> i ->
             fst (SparseRow.__getitem__ (IxInt j) self') =
             fst (SparseRow.__getitem__ (IxInt j) self)).
Proof.
  intros H. apply setitem_OK in H.
  destruct H as (_ & c & is_d & Hc & ->). split.
  - exists c, is_d. split; [exact Hc |].
    rewrite getitem_get, get_set_values. simpl fst.
    destruct is_d.
    + now rewrite dict_get_filter_same.
    + now rewrite dict_get_set_same.
  - intros j Hj. rewrite !getitem_get, get_set_values, get_fst. simpl fst.
    destruct is_d.
    + now rewrite dict_get_filter_other.
    + now rewrite dict_get_set_other.
Qed.

(** X7. For an index [i] in range, [del row[i]] returns without an error,
    whether or not an entry is stored; afterwards [row[i]] is the default
    of column [i] and every other index reads as before; a row that held
    no entry at [i] is unchanged. *)
Theorem delitem_then_getitem (i : Z) (self : SparseRow.t) :
  0 <= i < len (SparseRow._defaults self) ->
  exists self',
    SparseRow.__delitem__ (IxInt i) self = (OK tt, self') /\
    fst (SparseRow.__getitem__ (IxInt i) self') =
    list_get (SparseRow._defaults self) i /\
    (forall j, j <> i ->
               fst (SparseRow.__getitem__ (IxInt j) self') =
               fst (SparseRow.__getitem__ (IxInt j) self)) /\
    (dict_has (SparseRow._values self) i = false -> self' = self).
Proof.
  intros Hi. eexists. split.
  - unfold SparseRow.__delitem__. unfold_monad. simpl.
    rewrite check_range_OK by exact Hi. apply discard_spec.
  - split; [| split].
    + rewrite getitem_get, get_set_values. simpl fst.
      now rewrite dict_get_filter_same.
    + intros j Hj. rewrite !getitem_get, get_set_values, get_fst. simpl fst.
      now rewrite dict_get_filter_other.
    + intros Hh. rewrite filter_absent by exact Hh. apply set_values_same.
Qed.

(** The iterator yields the list [l] when [l] holds [row[0]], ...,
    [row[N-1]]. *)
Lemma to_list_gets (self : SparseRow.t) (l : list value) (fuel : nat) :
  List.length l = columns self ->
  (forall i o, nth_error l i = Some o ->
               fst (SparseRow._get (Z.of_nat i) self) = OK o) ->
  (columns self < fuel)%nat ->
  RowIter.to_list self fuel = Some (OK l).
Proof.
  intros Hl Hg Hf.
  destruct (iter_cells self (columns self) fuel 0 eq_refl Hf)
    as (out & Hd & Hlen & Hout).
  unfold RowIter.to_list, RowIter.__init__.
  change 0 with (Z.of_nat 0). rewrite Hd. simpl. do 2 f_equal.
  apply nth_error_same; [congruence |].
  intros i a a' Ha Ha'.
  specialize (Hout i a Ha). specialize (Hg i a' Ha').
  simpl in Hout. congruence.
Qed.

(** X8. After [clear] the row iterates to the list of the defaults. *)
Theorem clear_iter_defaults (self : SparseRow.t) :
  RowIter.to_list (snd (SparseRow.clear self)) (S (columns self)) =
  Some (OK (SparseRow._defaults self)).
Proof.
  apply to_list_gets; [reflexivity | | unfold columns; simpl; lia].
  intros i o Hi. simpl snd. rewrite get_set_values. simpl.
  now apply list_get_nat.
Qed.

(** X9. Iterating a row ends after exactly [N] values, whatever the row
    holds, and the value of place [i] is [row[i]]; the row is not
    changed. *)
Theorem iter_yields_getitems (self : SparseRow.t) (extra : nat) :
  exists out,
    RowIter.to_list self (S (columns self + extra)) = Some (OK out) /\
    List.length out = columns self /\
    forall i o, nth_error out i = Some o ->
                SparseRow.__getitem__ (IxInt (Z.of_nat i)) self = (OK o, self).
Proof.
  destruct (iter_cells self (columns self) (S (columns self + extra)) 0
              eq_refl) as (out & Hd & Hlen & Hout); [lia |].
  exists out. unfold RowIter.to_list, RowIter.__init__.
  change 0 with (Z.of_nat 0). rewrite Hd. repeat split; [exact Hlen |].
  intros i o Hi. specialize (Hout i o Hi). simpl in Hout.
  rewrite getitem_get.
  rewrite <- (get_state (Z.of_nat i) self) at 2. rewrite <- Hout.
  now destruct (SparseRow._get (Z.of_nat i) self).
Qed.
End ReadWrite.

(** ** What every row keeps *)

Section RowInduction.
Context {T : PyText}.
Variable P : SparseRow.t -> Prop.

Hypothesis P_new :
  forall h d n,
    List.length h = List.length n -> List.length h = List.length d ->
    P (SparseRow.mk h d n []).
Hypothesis P_clear : forall self, P self -> P (SparseRow.set_values [] self).
Hypothesis P_store :
  forall self k v c,
    P self -> 0 <= k < len (SparseRow._defaults self) ->
    fst (SparseRow._convert k v self) = OK (c, false) ->
    P (SparseRow.set_values (dict_set (SparseRow._values self) k c) self).
Hypothesis P_filter :
  forall self f,
    P self ->
    P (SparseRow.set_values (filter f (SparseRow._values self)) self).

Lemma step_add (fix_ : index_arg) (v : value) (self : SparseRow.t) :
  P self -> P (snd (SparseRow.add fix_ v self)).
Proof.
  intros Hp. unfold SparseRow.add.
  unfold bind at 1. unfold lift at 1.
  destruct (int fix_) as [z |]; [| exact Hp].
  unfold bind at 1.
  pose proof (check_range_state z self) as Hs.
  destruct (SparseRow._check_range z self) as [[[] |] s1] eqn:E; simpl in Hs;
    subst s1; [| exact Hp].
  apply check_range_inv in E.
  unfold bind at 1. rewrite convert_fst.
  destruct (fst (SparseRow._convert z v self)) as [[c []] |] eqn:Ec; simpl;
    try exact Hp.
  apply (P_store self z v c Hp E Ec).
Qed.

Lemma step_add_all (coo : list SparseRow.coo_item) (self : SparseRow.t) :
  P self -> P (snd (SparseRow.add_all coo self)).
Proof.
  revert self. induction coo as [| item rest IH]; intros self Hp;
    [exact Hp |].
  simpl. unfold bind at 1. unfold lift at 1.
  destruct (SparseRow.unpack item) as [[k v] |]; [| exact Hp].
  unfold bind at 1. simpl fst; simpl snd.
  pose proof (step_add k v self Hp) as Ha.
  destruct (SparseRow.add k v self) as [[[] |] s1]; simpl in Ha;
    [| exact Ha].
  apply IH, Ha.
Qed.

Lemma step_from_dense_loop (row : list value) :
  forall (k last : Z) (self : SparseRow.t),
    0 <= k -> P self ->
    P (snd (SparseRow.from_dense_loop k row last self)).
Proof.
  induction row as [| v rest IH]; intros k last self Hk Hp; [exact Hp |].
  simpl. unfold bind at 1. rewrite convert_fst.
  destruct (fst (SparseRow._convert k v self)) as [[c is_d] |] eqn:E;
    [| exact Hp].
  pose proof (convert_inv _ _ _ _ E Hk) as Hlt.
  unfold bind at 1. destruct is_d; simpl.
  - apply IH; [lia | exact Hp].
  - apply IH; [lia |]. apply (P_store self k v c Hp); [lia | exact E].
Qed.

(** A property of the new row that clearing, storing a converted value
    that is not default-equal in a column, and removing entries preserve,
    holds for every row. *)
Lemma reachable_values_ind (self : SparseRow.t) : reachable self -> P self.
Proof.
  induction 1 as [h d n coo copy self Hi | row self _ IH | k v self _ IH
                  | k self _ IH | self _ IH].
  - revert Hi. unfold SparseRow.__init__.
    destruct (_get_header _ _ _ _) as [[[h' d'] n'] |] eqn:Eh;
      [| discriminate].
    apply get_header_lengths in Eh. destruct Eh as [Hn Hd].
    pose proof (step_add_all coo (SparseRow.mk h' d' n' [])
                  (P_new h' d' n' Hn Hd)) as Ha.
    destruct (SparseRow.add_all coo _) as [[[] |] s1]; [| discriminate].
    intros [= <-]. exact Ha.
  - unfold SparseRow.from_dense.
    unfold bind at 1, modify at 1. unfold bind at 1.
    pose proof (step_from_dense_loop row 0 0 (SparseRow.set_values [] self)
                  (Z.le_refl 0) (P_clear self IH)) as Hl.
    destruct (SparseRow.from_dense_loop 0 row 0 _) as [[last |] s1];
      simpl in Hl; [| exact Hl].
    rewrite check_range_state. exact Hl.
  - unfold SparseRow.__setitem__.
    unfold bind at 1. unfold lift at 1.
    destruct (int k) as [z |]; [| exact IH].
    unfold bind at 1.
    pose proof (check_range_state z self) as Hs.
    destruct (SparseRow._check_range z self) as [[[] |] s1] eqn:E;
      simpl in Hs; subst s1; [| exact IH].
    apply check_range_inv in E.
    unfold bind at 1. rewrite convert_fst.
    destruct (fst (SparseRow._convert z v self)) as [[c []] |] eqn:Ec; simpl;
      try exact IH.
    + rewrite discard_spec. apply P_filter, IH.
    + apply (P_store self z v c IH E Ec).
  - unfold SparseRow.__delitem__.
    unfold bind at 1. unfold lift at 1.
    destruct (int k) as [z |]; [| exact IH].
    unfold bind at 1.
    pose proof (check_range_state z self) as Hs.
    destruct (SparseRow._check_range z self) as [[[] |] s1];
      simpl in Hs; subst s1; [| exact IH].
    rewrite discard_spec. apply P_filter, IH.
  - apply P_clear, IH.
Qed.
End RowInduction.

Lemma dict_set_keys (d : dict) (k : Z) (v : value) (x : Z) :
  In x (map fst (dict_set d k v)) -> x = k \/ In x (map fst d).
Proof.
  induction d as [| [k' v'] d IH]; simpl.
  - intros [H | []]; auto.
  - destruct (k' =? k) eqn:E; simpl.
    + apply Z.eqb_eq in E. subst k'. intros [H | H]; auto.
    + intros [H | H]; auto. destruct (IH H); auto.
Qed.

Lemma dict_set_NoDup (d : dict) (k : Z) (v : value) :
  NoDup (map fst d) -> NoDup (map fst (dict_set d k v)).
Proof.
  induction d as [| [k' v'] d IH]; simpl; intros Hd.
  - repeat constructor. intros [].
  - inversion Hd as [| x l Hx Hl]; subst.
    destruct (k' =? k) eqn:E; simpl.
    + apply Z.eqb_eq in E. subst k'. now constructor.
    + constructor; [| now apply IH].
      intros Hin. apply dict_set_keys in Hin.
      destruct Hin as [-> | Hin]; [| now apply Hx].
      now rewrite Z.eqb_refl in E.
Qed.

Lemma filter_keys_NoDup (f : Z * value -> bool) (d : dict) :
  NoDup (map fst d) -> NoDup (map fst (filter f d)).
Proof.
  induction d as [| kv d IH]; simpl; intros Hd; [constructor |].
  inversion Hd as [| x l Hx Hl]; subst.
  destruct (f kv); simpl; [| now apply IH].
  constructor; [| now apply IH].
  intros Hin. apply Hx. apply in_map_iff in Hin.
  destruct Hin as (kv' & Hk & Hin). apply filter_In in Hin.
  apply in_map_iff. exists kv'. now split.
Qed.

Section RowKeeps.
Context {T : PyText}.

(** A stored value converts to itself. *)
Lemma convert_idem (k : Z) (v c : value) (self : SparseRow.t) :
  fst (SparseRow._convert k v self) = OK (c, false) ->
  fst (SparseRow._convert k c self) = OK (c, false).
Proof.
  unfold SparseRow._convert. unfold_monad.
  destruct (list_get (SparseRow._defaults self) k) as [d |]; simpl;
    [| discriminate].
  destruct (list_get (SparseRow._numbers self) k) as [[] |]; simpl;
    try discriminate.
  - destruct (np_float64 v) as [f |]; simpl; [| discriminate].
    destruct (py_eq (VNum f) d) eqn:E; simpl; [discriminate |].
    destruct (isnan f) eqn:Ef; simpl.
    + destruct d as [s | g]; simpl; [discriminate |].
      intros H. injection H as <- Hg.
      simpl. rewrite E. simpl. rewrite Ef. simpl.
      do 2 f_equal. exact Hg.
    + intros [= <-]. simpl. rewrite E. simpl. now rewrite Ef.
  - intros [= <- E]. now rewrite E.
Qed.

Lemma reachable_lengths (self : SparseRow.t) :
  reachable self ->
  List.length (SparseRow._header self) = List.length (SparseRow._numbers self)
  /\ List.length (SparseRow._header self) =
     List.length (SparseRow._defaults self).
Proof.
  apply (reachable_values_ind
           (fun s => List.length (SparseRow._header s) =
                     List.length (SparseRow._numbers s) /\
                     List.length (SparseRow._header s) =
                     List.length (SparseRow._defaults s))); auto.
Qed.

Lemma reachable_NoDup (self : SparseRow.t) :
  reachable self -> NoDup (map fst (SparseRow._values self)).
Proof.
  apply (reachable_values_ind
           (fun s => NoDup (map fst (SparseRow._values s)))); simpl.
  - constructor.
  - constructor.
  - intros s k v c Hs _ _. now apply dict_set_NoDup.
  - intros s f Hs. now apply filter_keys_NoDup.
Qed.

Lemma reachable_converted (self : SparseRow.t) :
  reachable self ->
  forall k c, In (k, c) (SparseRow._values self) ->
              fst (SparseRow._convert k c self) = OK (c, false).
Proof.
  apply (reachable_values_ind
           (fun s => forall k c,
                In (k, c) (SparseRow._values s) ->
                fst (SparseRow._convert k c s) = OK (c, false))); simpl.
  - intros h d n _ _ k c [].
  - intros s _ k c [].
  - intros s k v c Hs _ Hc j w Hin.
    change (SparseRow.mk _ _ _ ?d) with (SparseRow.set_values d s).
    rewrite convert_set_values. simpl fst.
    apply dict_set_In in Hin. destruct Hin as [[= -> ->] | Hin].
    + apply (convert_idem _ _ _ _ Hc).
    + now apply Hs.
  - intros s f Hs j w Hin.
    change (SparseRow.mk _ _ _ ?d) with (SparseRow.set_values d s).
    rewrite convert_set_values. simpl fst.
    apply filter_In in Hin. now apply Hs.
Qed.

(** X10. Every row, after its construction and after any calls of the
    mutating methods, has a schema of three lists of one length; its
    stored entries belong to columns [0] to [N-1], at most one for a
    column, and the entries of numeric columns are floats. *)
Theorem reachable_well_formed (self : SparseRow.t) :
  reachable self ->
  (List.length (SparseRow._header self) = columns self /\
   List.length (SparseRow._numbers self) = columns self) /\
  (forall k c, In (k, c) (SparseRow._values self) ->
               0 <= k < Z.of_nat (columns self)) /\
  NoDup (map fst (SparseRow._values self)) /\
  (forall k c, In (k, c) (SparseRow._values self) ->
               list_get (SparseRow._numbers self) k = OK true ->
               exists f, c = VNum f).
Proof.
  intros Hr. repeat apply conj.
  - apply reachable_lengths in Hr. unfold columns. lia.
  - apply reachable_lengths in Hr. unfold columns. lia.
  - intros k c Hin. apply (reachable_keys self Hr (k, c) Hin).
  - now apply reachable_NoDup.
  - intros k c Hin Hn.
    pose proof (reachable_converted self Hr k c Hin) as Hc.
    destruct (convert_value _ _ _ _ _ _ Hc Hn) as (f & _ & ->). eauto.
Qed.

(** X11. On every row, [row[i]] returns a value for [0 <= i < N], and
    raises [IndexError] for [i >= N] and for [i < -N]; the row is not
    changed. *)
Theorem getitem_bounds (i : Z) (self : SparseRow.t) :
  reachable self ->
  (0 <= i < len (SparseRow._defaults self) ->
   exists o, SparseRow.__getitem__ (IxInt i) self = (OK o, self)) /\
  (len (SparseRow._defaults self) <= i \/
   i < - len (SparseRow._defaults self) ->
   exists e, SparseRow.__getitem__ (IxInt i) self = (Raise e, self) /\
             OutOfRange e).
Proof.
  intros Hr. split.
  - intros Hi. destruct (get_in_range i self Hi) as [o Ho].
    exists o. rewrite getitem_get.
    rewrite <- (get_state i self) at 2. rewrite <- Ho.
    now destruct (SparseRow._get i self).
  - now apply getitem_far_out_of_range.
Qed.
End RowKeeps.

(** ** The entries of [__init__] *)

Section InitEntries.
Context {T : PyText}.

Lemma stored_by_set_values (d : dict) (self : SparseRow.t) (i : Z)
      (item : SparseRow.coo_item) :
  stored_by (SparseRow.set_values d self) i item = stored_by self i item.
Proof.
  unfold stored_by.
  destruct (SparseRow.unpack item) as [[fix_ v] |]; [| reflexivity].
  destruct (int fix_) as [k |]; [| reflexivity].
  now rewrite convert_set_values.
Qed.

Lemma last_stored_set_values (d : dict) (self : SparseRow.t) (i : Z)
      (coo : list SparseRow.coo_item) :
  last_stored (SparseRow.set_values d self) i coo = last_stored self i coo.
Proof.
  unfold last_stored. generalize (@None value).
  induction coo as [| item rest IH]; intros acc; [reflexivity |].
  simpl. rewrite stored_by_set_values. apply IH.
Qed.

Lemma fold_last_stored (self : SparseRow.t) (i : Z)
      (coo : list SparseRow.coo_item) :
  forall acc,
    fold_left (fun acc item =>
                 match stored_by self i item with
                 | Some c => Some c
                 | None => acc
                 end) coo acc =
    match last_stored self i coo with
    | Some c => Some c
    | None => acc
    end.
Proof.
  unfold last_stored. induction coo as [| x rest IH]; intros acc;
    [reflexivity |].
  simpl. destruct (stored_by self i x) as [c |].
  - rewrite (IH (Some c)).
    now destruct (fold_left _ rest None).
  - apply IH.
Qed.

Lemma last_stored_cons (self : SparseRow.t) (i : Z)
      (item : SparseRow.coo_item) (rest : list SparseRow.coo_item) :
  last_stored self i (item :: rest) =
  match last_stored self i rest with
  | Some c => Some c
  | None => stored_by self i item
  end.
Proof.
  unfold last_stored at 1. simpl. rewrite fold_last_stored.
  now destruct (stored_by self i item).
Qed.

(** One call of [add]: the entry of column [i] afterwards. *)
Lemma add_stored (self : SparseRow.t) (i : Z) (item : SparseRow.coo_item)
      (fix_ : index_arg) (v : value) (d0 : dict) (s1 : SparseRow.t) :
  SparseRow.unpack item = OK (fix_, v) ->
  SparseRow.add fix_ v (SparseRow.set_values d0 self) = (OK tt, s1) ->
  exists d1,
    s1 = SparseRow.set_values d1 self /\
    dict_get d1 i = match stored_by self i item with
                    | Some c => OK c
                    | None => dict_get d0 i
                    end.
Proof.
  intros Hu. unfold stored_by. rewrite Hu. unfold SparseRow.add.
  unfold bind at 1. unfold lift at 1.
  destruct (int fix_) as [k |]; [| discriminate].
  unfold bind at 1. rewrite check_range_set_values.
  destruct (fst (SparseRow._check_range k self)) as [[] |]; [| discriminate].
  unfold bind at 1. rewrite convert_set_values.
  destruct (fst (SparseRow._convert k v self)) as [[c is_d] |];
    [| discriminate].
  destruct is_d; cbn [fst snd negb]; cbv iota.
  - intros [= <-]. exists d0. split; [reflexivity |].
    now destruct (k =? i).
  - unfold SparseRow.store, modify. intros [= <-].
    exists (dict_set d0 k c). split; [reflexivity |]. simpl.
    destruct (k =? i) eqn:E.
    + apply Z.eqb_eq in E. subst i. apply dict_get_set_same.
    + apply dict_get_set_other. apply Z.eqb_neq in E. lia.
Qed.

Lemma add_all_stored (self : SparseRow.t) (i : Z) :
  forall (coo : list SparseRow.coo_item) (d0 : dict) (s' : SparseRow.t),
    SparseRow.add_all coo (SparseRow.set_values d0 self) = (OK tt, s') ->
    exists d',
      s' = SparseRow.set_values d' self /\
      dict_get d' i = match last_stored self i coo with
                      | Some c => OK c
                      | None => dict_get d0 i
                      end.
Proof.
  induction coo as [| item rest IH]; intros d0 s'.
  - simpl. unfold ret. intros [= <-]. exists d0. now split.
  - simpl SparseRow.add_all. unfold bind at 1. unfold lift at 1.
    destruct (SparseRow.unpack item) as [[fix_ v] |] eqn:Hu;
      [| discriminate].
    unfold bind at 1. simpl fst; simpl snd.
    destruct (SparseRow.add fix_ v (SparseRow.set_values d0 self))
      as [[[] |] s1] eqn:Ha; [| discriminate].
    destruct (add_stored self i item fix_ v d0 s1 Hu Ha) as (d1 & -> & Hd1).
    intros Hrest. destruct (IH d1 s' Hrest) as (d' & -> & Hd').
    exists d'. split; [reflexivity |].
    rewrite Hd', last_stored_cons.
    destruct (last_stored self i rest); [reflexivity | exact Hd1].
Qed.

(** X12. In the row that [__init__] builds from [coo], [row[i]] is the
    converted value of the last element of [coo] for column [i] whose
    value is not default-equal, and the default of column [i] when [coo]
    has no such element: an element whose value is default-equal leaves
    what earlier elements stored. *)
Theorem init_getitem_last_stored
        (header : list string) (defaults : list value)
        (numbers : option (list bool)) (coo : list SparseRow.coo_item)
        (copy : bool) (self : SparseRow.t) (i : Z) :
  SparseRow.__init__ header defaults numbers coo copy = OK self ->
  fst (SparseRow.__getitem__ (IxInt i) self) =
  match last_stored self i coo with
  | Some c => OK c
  | None => list_get (SparseRow._defaults self) i
  end.
Proof.
  unfold SparseRow.__init__.
  destruct (_get_header _ _ _ _) as [[[h d] n] |]; [| discriminate].
  destruct (SparseRow.add_all coo (SparseRow.mk h d n [])) as [[[] |] s']
    eqn:Ha; [| discriminate].
  intros [= <-].
  change (SparseRow.mk h d n [])
    with (SparseRow.set_values [] (SparseRow.mk h d n [])) in Ha.
  destruct (add_all_stored _ i coo [] s' Ha) as (d' & -> & Hd').
  rewrite getitem_get, get_set_values, last_stored_set_values. simpl fst.
  rewrite Hd'. now destruct (last_stored _ i coo).
Qed.
End InitEntries.

(** The elements [(0, 5.0), (0, 0.0)] over the default [0.0]. *)
Lemma init_getitem_last_stored_witness :
  fst (SparseRow.__getitem__ (T := Literals.text) (IxInt 0)
         (SparseRow.mk ["a"] [VNum pos_zero] [true] [(0, VNum five)])) =
  OK (VNum five).
Proof.
  apply (init_getitem_last_stored (T := Literals.text)
           ["a"] [VNum pos_zero] (Some [true])
           [SparseRow.Pair (IxInt 0) (VNum five);
            SparseRow.Pair (IxInt 0) (VNum pos_zero)] true).
  reflexivity.
Defined.

(** ** Reading a file to its end *)

Section LoaderEnd.
Context {T : PyText}.

Lemma list_get_not_stop {A} (l : list A) (i : Z) :
  list_get l i <> Raise StopIteration.
Proof.
  unfold list_get.
  destruct (_ && _); [destruct (nth_error _ _) |]; discriminate.
Qed.

Lemma coerce_defaults_not_stop (numbers : list bool) (defaults : list value) :
  forall fix_, coerce_defaults numbers fix_ defaults <> Raise StopIteration.
Proof.
  induction defaults as [| d rest IH]; intros k; simpl; [discriminate |].
  pose proof (list_get_not_stop numbers k) as Hn.
  destruct (list_get numbers k) as [isnum | e]; [| congruence].
  specialize (IH (k + 1)).
  destruct isnum; [destruct d as [s | f]; simpl;
                   [destruct (parse_float s) |] |];
    try discriminate;
    destruct (coerce_defaults numbers (k + 1) rest); congruence.
Qed.

Lemma get_header_not_stop header defaults numbers copy :
  _get_header header defaults numbers copy <> Raise StopIteration.
Proof.
  unfold _get_header.
  destruct copy, header as [h |]; try discriminate; cbv beta iota zeta;
    destruct (negb _); try discriminate.
  - pose proof (coerce_defaults_not_stop
                  match numbers with
                  | Some ns => ns
                  | None => map _is_num defaults
                  end defaults 0) as Hc.
    destruct (coerce_defaults _ 0 defaults); [| congruence].
    destruct (negb _); discriminate.
  - destruct (negb _); discriminate.
Qed.

Lemma add_not_stop (fix_ : index_arg) (v : value) (self : SparseRow.t) :
  fst (SparseRow.add fix_ v self) <> Raise StopIteration.
Proof.
  unfold SparseRow.add, SparseRow._check_range, SparseRow._convert,
    SparseRow.store.
  unfold_monad.
  destruct fix_ as [z | s]; simpl; [| destruct (parse_int s); simpl];
    try discriminate;
    (destruct (_ || _); simpl; [discriminate |];
     match goal with
     | |- context [list_get (SparseRow._defaults self) ?k] =>
         pose proof (list_get_not_stop (SparseRow._defaults self) k) as Hd;
         pose proof (list_get_not_stop (SparseRow._numbers self) k) as Hn;
         destruct (list_get (SparseRow._defaults self) k) as [d |]; simpl;
         [| congruence];
         destruct (list_get (SparseRow._numbers self) k) as [[] |]; simpl;
         [| | congruence]
     end;
     [destruct v as [t | f]; simpl; [destruct (parse_float t); simpl |];
      try discriminate;
      (destruct (py_eq _ d); simpl; [discriminate |];
       destruct (isnan _); simpl; [| discriminate];
       destruct d as [t' | g]; simpl; [discriminate |];
       destruct (isnan g); discriminate)
     | destruct (py_eq v d); discriminate]).
Qed.

Lemma add_all_not_stop (coo : list SparseRow.coo_item) :
  forall self, fst (SparseRow.add_all coo self) <> Raise StopIteration.
Proof.
  induction coo as [| item rest IH]; intros self; [discriminate |].
  simpl. unfold bind at 1. unfold lift at 1.
  destruct (SparseRow.unpack item) as [[k v] | e] eqn:Hu.
  - unfold bind at 1. simpl fst; simpl snd.
    pose proof (add_not_stop k v self) as Ha.
    destruct (SparseRow.add k v self) as [[[] |] s1]; simpl in Ha;
      [apply IH | exact Ha].
  - simpl. destruct item as [fix_ v | [| a [| b [| c l]]]]; simpl in Hu;
      congruence.
Qed.

Lemma init_not_stop header defaults numbers coo copy :
  SparseRow.__init__ header defaults numbers coo copy <> Raise StopIteration.
Proof.
  unfold SparseRow.__init__.
  pose proof (get_header_not_stop (Some header) defaults numbers copy) as Hh.
  destruct (_get_header _ _ _ _) as [[[h d] n] |]; [| congruence].
  pose proof (add_all_not_stop coo (SparseRow.mk h d n [])) as Ha.
  destruct (SparseRow.add_all coo _) as [[[] |] s1]; simpl in Ha;
    [discriminate | congruence].
Qed.

Lemma next_open_line (line : list string) (rest : list (list string))
      (cl : bool) (h : list string) (d : list value) (n : list bool) :
  SparseLoader.__next__
    (SparseLoader.mk (BaseFile.mk (line :: rest) true cl) h d n) =
  (SparseRow.__init__ h d (Some n)
     (map (fun e => SparseRow.Fields (split1 ":" e)) line) false,
   SparseLoader.mk (BaseFile.mk rest true cl) h d n).
Proof. reflexivity. Qed.

Lemma drain_lines (cl : bool) (h : list string) (d : list value)
      (n : list bool) (extra : nat) :
  forall ls,
  exists r l',
    drain SparseLoader.__next__ (S (List.length ls + extra))
      (SparseLoader.mk (BaseFile.mk ls true cl) h d n) = Some (r, l') /\
    forall rows, r = OK rows -> List.length rows = List.length ls.
Proof.
  induction ls as [| line rest IH].
  - do 2 eexists. split; [reflexivity |]. now intros rows [= <-].
  - destruct IH as (r & l' & Hr & Hrows).
    change (S (List.length (line :: rest) + extra))
      with (S (S (List.length rest + extra))).
    rewrite drain_step, next_open_line.
    pose proof (init_not_stop h d (Some n)
                  (map (fun e => SparseRow.Fields (split1 ":" e)) line)
                  false) as Hstop.
    destruct (SparseRow.__init__ h d (Some n) _ false) as [row | e].
    + rewrite Hr. destruct r as [rows | e].
      * do 2 eexists. split; [reflexivity |].
        intros rows' [= <-]. simpl. f_equal. now apply Hrows.
      * do 2 eexists. split; [reflexivity |]. intros rows' Hx.
        discriminate Hx.
    + destruct e; try congruence;
        (do 2 eexists; split; [reflexivity |]; intros rows' Hx;
         discriminate Hx).
Qed.

(** X13. Reading a loader to its end takes at most one call of [__next__]
    for every line that is left and one more, whatever the lines hold; and
    when no call raises an error, the loader has yielded exactly one row
    for every line. *)
Theorem loader_to_list_ends (l : SparseLoader.t) (extra : nat) :
  exists r,
    SparseLoader.to_list l
      (S (List.length (BaseFile.lines (SparseLoader.base l)) + extra))
    = Some r /\
    forall rows,
      r = OK rows ->
      List.length rows = List.length (BaseFile.lines (SparseLoader.base l)).
Proof.
  unfold SparseLoader.to_list.
  destruct l as [[ls csv cl] h d n].
  cbn [SparseLoader.base BaseFile.lines]. destruct csv.
  - destruct (drain_lines cl h d n extra ls) as (r & l' & Hr & Hrows).
    exists r. rewrite Hr. split; [reflexivity | exact Hrows].
  - eexists. split; [reflexivity |]. intros rows' Hx. discriminate Hx.
Qed.

(** X14. An empty line is read as the row without entries, which iterates
    to the defaults; the loader goes on to the next line. *)
Theorem next_empty_line (l : SparseLoader.t) (rest : list (list string)) :
  BaseFile.lines (SparseLoader.base l) = [] :: rest ->
  BaseFile._csv (SparseLoader.base l) = true ->
  List.length (SparseLoader._header l) = List.length (SparseLoader._numbers l)
  ->
  List.length (SparseLoader._header l) = List.length (SparseLoader._defaults l)
  ->
  let row := SparseRow.mk (SparseLoader._header l) (SparseLoader._defaults l)
               (SparseLoader._numbers l) [] in
  SparseLoader.__next__ l =
  (OK row,
   SparseLoader.mk
     (BaseFile.mk rest true (BaseFile.closed (SparseLoader.base l)))
     (SparseLoader._header l) (SparseLoader._defaults l)
     (SparseLoader._numbers l)) /\
  RowIter.to_list row (S (List.length (SparseLoader._defaults l))) =
  Some (OK (SparseLoader._defaults l)).
Proof.
  destruct l as [[ls csv cl] h d n]. simpl.
  intros -> -> Hn Hd. split.
  - unfold SparseLoader.__next__, SparseLoader.super, BaseFile.next.
    unfold_monad. simpl. unfold SparseRow.__init__.
    now rewrite get_header_same_lengths.
  - apply to_list_gets; [reflexivity | | unfold columns; simpl; lia].
    intros i o Hi. rewrite get_fst. simpl. now apply list_get_nat.
Qed.
End LoaderEnd.

(** The loader of the scenario on an empty line. *)
Lemma next_empty_line_witness :
  let l := loader_of abc_writer [[]; ["0:5.0"]] in
  let row := abc_row [] in
  SparseLoader.__next__ (T := Literals.text) l =
  (OK row, loader_of abc_writer [["0:5.0"]]) /\
  RowIter.to_list row 4 = Some (OK abc_defaults).
Proof.
  apply (next_empty_line (T := Literals.text)
           (loader_of abc_writer [[]; ["0:5.0"]]) [["0:5.0"]]);
    reflexivity.
Defined.

(** ** One line for a row *)

Section WriteRow.
Context {T : PyText}.

Lemma write_sparse_row_run (sparse : list (Z * value)) (w : SparseWriter.t) :
  SparseWriter.write_sparse_row sparse w =
  if BaseFile._csv (SparseWriter.base w)
  then (OK tt, written w [map token sparse])
  else (Raise (AttributeError "'NoneType' object has no attribute 'writerow'"),
        w).
Proof.
  destruct w as [[ls csv cl] h d n].
  unfold SparseWriter.write_sparse_row, SparseWriter.super,
    BaseFile.writerow. unfold_monad. simpl.
  destruct csv; reflexivity.
Qed.

Lemma write_dense_row_run (values : list value) (w : SparseWriter.t) :
  SparseWriter.write_dense_row values w =
  match SparseRow.__init__ (SparseWriter._header w) (SparseWriter._defaults w)
          (Some (SparseWriter._numbers w)) [] false with
  | Raise e => (Raise e, w)
  | OK row =>
      match SparseRow.from_dense values row with
      | (OK _, row') =>
          SparseWriter.write_sparse_row (SparseRow.get_values row') w
      | (Raise e, _) => (Raise e, w)
      end
  end.
Proof.
  unfold SparseWriter.write_dense_row, SparseWriter.get_empty_row.
  unfold_monad.
  destruct (SparseRow.__init__ _ _ _ [] false) as [row |]; [| reflexivity].
  destruct (SparseRow.from_dense values row) as [[[] |] row'];
    reflexivity.
Qed.

Lemma init_empty_no_copy (h : list string) (d : list value) (n : list bool)
      (row : SparseRow.t) :
  SparseRow.__init__ h d (Some n) [] false = OK row ->
  row = SparseRow.mk h d n [].
Proof.
  unfold SparseRow.__init__, _get_header. cbv beta iota zeta.
  destruct (negb (len h =? len n)); [discriminate |].
  destruct (negb (len h =? len d)); [discriminate |].
  simpl. now intros [= <-].
Qed.

(** X15. [write_dense_row] either appends exactly one line to the file,
    the tokens of the entries that [from_dense] keeps of the values, or
    raises and leaves the writer and the file as they were: a row that
    [from_dense] refuses, or a closed file, writes nothing. *)
Theorem write_dense_row_one_line_or_none
        (values : list value) (w : SparseWriter.t) :
  match SparseWriter.write_dense_row values w with
  | (OK _, w') =>
      w' = written w
             [sparse_line (snd (SparseRow.from_dense values (empty_row w)))]
  | (Raise _, w') => w' = w
  end.
Proof.
  rewrite write_dense_row_run.
  destruct (SparseRow.__init__ _ _ _ [] false) as [row |] eqn:Ei;
    [| reflexivity].
  apply init_empty_no_copy in Ei. subst row.
  change (SparseRow.mk _ _ _ []) with (empty_row w).
  destruct (SparseRow.from_dense values (empty_row w)) as [[[] |] row'];
    [| reflexivity].
  rewrite write_sparse_row_run.
  destruct (BaseFile._csv (SparseWriter.base w)); reflexivity.
Qed.

(** Every default converts to itself and is not kept. *)
Lemma kept_defaults (self : SparseRow.t) :
  valid_row self ->
  forall rest pre,
    SparseRow._defaults self = pre ++ rest ->
    all_convert self (len pre) rest /\ kept self (len pre) rest = [].
Proof.
  intros Hv. induction rest as [| v rest IH]; intros pre Hd;
    [split; [exact I | reflexivity] |].
  assert (Hg : list_get (SparseRow._defaults self) (len pre) = OK v).
  { unfold len. apply list_get_nat.
    rewrite Hd, nth_error_app2, Nat.sub_diag by lia. reflexivity. }
  assert (Hc : fst (SparseRow._convert (len pre) v self) = OK (v, true)).
  { rewrite convert_default; [reflexivity | exact Hv | unfold len; lia
                              | exact Hg]. }
  destruct (IH (pre ++ [v])) as [Ha Hk];
    [now rewrite <- app_assoc |].
  replace (len (pre ++ [v])) with (len pre + 1) in Ha, Hk
    by (unfold len; rewrite length_app; simpl; lia).
  simpl. rewrite Hc. split; [split; [eauto | exact Ha] | exact Hk].
Qed.

(** X16. Over a valid schema of at least one column, the dense row of the
    defaults themselves is written as an empty line. *)
Theorem write_defaults_empty_line (w : SparseWriter.t) :
  valid_schema (SparseWriter._header w) (SparseWriter._defaults w)
    (SparseWriter._numbers w) ->
  (0 < List.length (SparseWriter._defaults w))%nat ->
  BaseFile._csv (SparseWriter.base w) = true ->
  SparseWriter.write_dense_row (SparseWriter._defaults w) w =
  (OK tt, written w [[]]).
Proof.
  intros Hv Hpos Hopen.
  destruct (kept_defaults (empty_row w) Hv (SparseWriter._defaults w) []
              eq_refl) as [Ha Hk].
  change (len []) with 0 in Ha, Hk.
  rewrite write_dense_row_run. unfold SparseRow.__init__.
  destruct Hv as (Hn & Hd & _).
  rewrite (get_header_same_lengths _ _ _ Hn Hd). simpl SparseRow.add_all.
  unfold ret. change (SparseRow.mk _ _ _ []) with (empty_row w).
  rewrite (from_dense_kept _ _ Ha), Hk.
  rewrite check_range_OK
    by (apply last_index_in_range; unfold columns; simpl; lia).
  simpl fst. cbv iota. rewrite write_sparse_row_run, Hopen. reflexivity.
Qed.

(** X19. After [close], [write_sparse_row] raises [AttributeError] and
    the loader's [__next__] raises [TypeError]; neither changes the lines
    of the file, which stays closed; a second [close] changes nothing. *)
Theorem closed_file_refuses
        (w : SparseWriter.t) (l : SparseLoader.t)
        (sparse : list (Z * value)) :
  let w1 := snd (SparseWriter.super BaseFile.close w) in
  let l1 := snd (SparseLoader.super BaseFile.close l) in
  (exists msg,
      SparseWriter.write_sparse_row sparse w1 = (Raise (AttributeError msg), w1))
  /\ (exists msg, SparseLoader.__next__ l1 = (Raise (TypeError msg), l1))
  /\ BaseFile.closed (SparseWriter.base w1) = true
  /\ BaseFile.lines (SparseWriter.base w1) =
     BaseFile.lines (SparseWriter.base w)
  /\ SparseWriter.super BaseFile.close w1 = (OK tt, w1)
  /\ SparseLoader.super BaseFile.close l1 = (OK tt, l1).
Proof.
  destruct w as [[ls csv cl] h d n], l as [[ls' csv' cl'] h' d' n'].
  repeat split; eexists; reflexivity.
Qed.
End WriteRow.

(** The writer of the scenario writes its defaults. *)
Lemma write_defaults_empty_line_witness :
  SparseWriter.write_dense_row (T := Literals.text) abc_defaults abc_writer =
  (OK tt, written abc_writer [[]]).
Proof.
  apply (write_defaults_empty_line (T := Literals.text) abc_writer).
  - exact abc_valid.
  - simpl. lia.
  - reflexivity.
Defined.

(** ** The sparse view through the file *)



Lemma filter_below (d : dict) (k : Z) :
  (forall kv, In kv d -> fst kv < k) ->
  filter (fun kv => negb (fst kv =? k)) d = d.
Proof.
  intros H. apply filter_absent.
  unfold dict_has. apply not_true_is_false. intros Hex.
  apply existsb_exists in Hex. destruct Hex as (kv & Hin & Heq).
  apply Z.eqb_eq in Heq. specialize (H kv Hin). lia.
Qed.

Section SparseTrip.
Context {T : PyText}.


Lemma set_each_kept (self : SparseRow.t) (row : list value) :
  forall (k : Z) (d0 : dict),
    all_convert self k row ->
    0 <= k -> k + len row <= len (SparseRow._defaults self) ->
    (forall kv, In kv d0 -> fst kv < k) ->
    set_each k row (SparseRow.set_values d0 self) =
    (OK tt, SparseRow.set_values (d0 ++ kept self k row) self).
Proof.
  induction row as [| v rest IH]; intros k d0 Hc Hk Hl Hd.
  - simpl. unfold ret. now rewrite app_nil_r.
  - destruct Hc as [(c & is_d & Hc) Hrest].
    assert (Hl' : k + 1 + len rest <= len (SparseRow._defaults self))
      by (unfold len in *; simpl List.length in Hl; lia).
    simpl set_each. unfold bind at 1.
    unfold SparseRow.__setitem__.
    unfold bind at 1. unfold lift at 1. simpl int. cbv iota.
    unfold bind at 1.
    rewrite check_range_set_values, check_range_OK
      by (unfold len in *; simpl List.length in Hl; lia).
    simpl fst. cbv iota. unfold bind at 1.
    rewrite convert_set_values, Hc. simpl kept. rewrite Hc.
    destruct is_d; cbn [fst snd]; cbv iota.
    + rewrite discard_spec. simpl SparseRow._values.
      rewrite filter_below by exact Hd.
      change (SparseRow.set_values d0 (SparseRow.set_values d0 self))
        with (SparseRow.set_values d0 self).
      apply (IH (k + 1) d0 Hrest); [lia | exact Hl' |].
      intros kv Hin. specialize (Hd kv Hin). lia.
    + unfold SparseRow.store, modify. simpl SparseRow._values.
      rewrite dict_set_fresh by exact Hd.
      change (SparseRow.set_values (d0 ++ [(k, c)])
                (SparseRow.set_values d0 self))
        with (SparseRow.set_values (d0 ++ [(k, c)]) self).
      rewrite (IH (k + 1) (d0 ++ [(k, c)]) Hrest); [| lia | exact Hl' |].
      * now rewrite <- app_assoc.
      * intros kv Hin. apply in_app_or in Hin.
        destruct Hin as [Hin | [<- | []]]; [specialize (Hd kv Hin) |];
          simpl; lia.
Qed.

(** X18. Over a valid schema of [N >= 1] columns, for at most [N] values
    that convert, [from_dense] does what [clear] followed by
    [row[0] = v0], [row[1] = v1], ... does: the same result and the same
    row, with the same entries in the same order. *)
Theorem from_dense_as_setitems (row : list value) (self : SparseRow.t) :
  valid_row self ->
  (0 < columns self)%nat ->
  (List.length row <= columns self)%nat ->
  converts row (SparseRow._numbers self) ->
  SparseRow.from_dense row self =
  (SparseRow.clear ;;; set_each 0 row) self.
Proof.
  intros Hv Hpos Hl Hc.
  pose proof (converts_from_zero self row Hv Hl Hc) as Ha.
  rewrite (from_dense_kept row self Ha).
  rewrite check_range_OK by now apply last_index_in_range.
  unfold bind, SparseRow.clear, modify.
  rewrite (set_each_kept self row 0 [] Ha); [reflexivity | lia | |].
  - unfold len, columns in *. lia.
  - intros kv [].
Qed.
End SparseTrip.

(** ** The added properties on the examples *)

Lemma abc_reachable :
  reachable (T := Literals.text) (abc_row [(2, VNum five)]).
Proof.
  change (reachable (T := Literals.text)
            (snd (SparseRow.__delitem__ (T := Literals.text) (IxInt 0)
                    (abc_row [(0, VNum five); (2, VNum five)])))).
  apply reach_delitem.
  change (reachable (T := Literals.text)
            (snd (SparseRow.__setitem__ (T := Literals.text) (IxInt 2)
                    (VStr "5.0") (abc_row [(0, VNum five)])))).
  apply reach_setitem.
  apply (reach_init abc_header abc_defaults (Some abc_numbers)
           [SparseRow.Pair (IxInt 0) (VNum five)] true).
  reflexivity.
Qed.

(** The schema of the scenario, from the texts of its defaults. *)
Lemma get_header_inferred_witness :
  _get_header (T := Literals.text) (Some abc_header)
    [VStr "0.0"; VStr "x"; VStr "1.0"] None true =
  OK (abc_header, abc_defaults, abc_numbers).
Proof.
  apply (proj1 (get_header_inferred (T := Literals.text) abc_header
                  [VStr "0.0"; VStr "x"; VStr "1.0"])).
  reflexivity.
Defined.

Lemma get_header_revalidate_witness :
  _get_header (T := Literals.text) (Some abc_header) abc_defaults
    (Some abc_numbers) true =
  OK (abc_header, abc_defaults, abc_numbers).
Proof.
  apply (get_header_revalidate (T := Literals.text) (Some abc_header)
           [VStr "0.0"; VStr "x"; VStr "1.0"] None true true).
  - reflexivity.
  - left. reflexivity.
Defined.

(** Three names, two defaults, three flags. *)
Lemma get_header_mismatch_raises_witness :
  exists e,
    _get_header (T := Literals.text) (Some abc_header)
      [VNum pos_zero; VStr "x"] (Some abc_numbers) true = Raise e.
Proof.
  apply (get_header_mismatch_raises (T := Literals.text) abc_header
           [VNum pos_zero; VStr "x"] abc_numbers true).
  right. simpl. lia.
Defined.

(** Column [0] of the scenario is set to the text [5.0]. *)
Lemma setitem_then_getitem_witness :
  (exists c is_d,
      fst (SparseRow._convert (T := Literals.text) 0 (VStr "5.0") (abc_row []))
      = OK (c, is_d) /\
      fst (SparseRow.__getitem__ (T := Literals.text) (IxInt 0)
             (abc_row [(0, VNum five)])) =
      if is_d then list_get (SparseRow._defaults (abc_row [])) 0 else OK c) /\
  (forall j, j <> 0 ->
             fst (SparseRow.__getitem__ (T := Literals.text) (IxInt j)
                    (abc_row [(0, VNum five)])) =
             fst (SparseRow.__getitem__ (T := Literals.text) (IxInt j)
                    (abc_row []))).
Proof.
  apply (setitem_then_getitem (T := Literals.text) 0 (VStr "5.0")
           (abc_row []) (abc_row [(0, VNum five)])).
  reflexivity.
Defined.

(** The entry of column [1] of the scenario is deleted. *)
Lemma delitem_then_getitem_witness :
  let self := abc_row [(1, VStr "y")] in
  exists self',
    SparseRow.__delitem__ (T := Literals.text) (IxInt 1) self = (OK tt, self')
    /\ fst (SparseRow.__getitem__ (T := Literals.text) (IxInt 1) self') =
       list_get (SparseRow._defaults self) 1
    /\ (forall j, j <> 1 ->
                  fst (SparseRow.__getitem__ (T := Literals.text) (IxInt j)
                         self') =
                  fst (SparseRow.__getitem__ (T := Literals.text) (IxInt j)
                         self))
    /\ (dict_has (SparseRow._values self) 1 = false -> self' = self).
Proof.
  apply (delitem_then_getitem (T := Literals.text) 1
           (abc_row [(1, VStr "y")])).
  unfold len. simpl. lia.
Defined.

Lemma reachable_well_formed_witness :
  let self := abc_row [(2, VNum five)] in
  (List.length (SparseRow._header self) = columns self /\
   List.length (SparseRow._numbers self) = columns self) /\
  (forall k c, In (k, c) (SparseRow._values self) ->
               0 <= k < Z.of_nat (columns self)) /\
  NoDup (map fst (SparseRow._values self)) /\
  (forall k c, In (k, c) (SparseRow._values self) ->
               list_get (SparseRow._numbers self) k = OK true ->
               exists f, c = VNum f).
Proof.
  apply (reachable_well_formed (T := Literals.text)
           (abc_row [(2, VNum five)])).
  exact abc_reachable.
Defined.

Lemma getitem_bounds_witness :
  let self := abc_row [(2, VNum five)] in
  (0 <= 3 < len (SparseRow._defaults self) ->
   exists o, SparseRow.__getitem__ (T := Literals.text) (IxInt 3) self
             = (OK o, self)) /\
  (len (SparseRow._defaults self) <= 3 \/
   3 < - len (SparseRow._defaults self) ->
   exists e, SparseRow.__getitem__ (T := Literals.text) (IxInt 3) self
             = (Raise e, self) /\ OutOfRange e).
Proof.
  apply (getitem_bounds (T := Literals.text) 3 (abc_row [(2, VNum five)])).
  exact abc_reachable.
Defined.


(** Two values over the three columns of the scenario. *)
Lemma from_dense_as_setitems_witness :
  let row := [VStr "5.0"; VStr "x"] in
  let self := abc_row [(1, VStr "z")] in
  SparseRow.from_dense (T := Literals.text) row self =
  (SparseRow.clear ;;; set_each (T := Literals.text) 0 row) self.
Proof.
  apply (from_dense_as_setitems (T := Literals.text)
           [VStr "5.0"; VStr "x"] (abc_row [(1, VStr "z")])).
  - exact abc_valid.
  - unfold columns. simpl. lia.
  - unfold columns. simpl. lia.
  - intros [| [| [| i]]] v Hrow Hn; simpl in Hrow, Hn;
      try discriminate; injection Hrow as <-; eexists; reflexivity.
Defined.

(** ** The sparse view and the reads *)

Lemma dict_get_In (d : dict) (k : Z) (c : value) :
  NoDup (map fst d) -> In (k, c) d -> dict_get d k = OK c.
Proof.
  induction d as [| [k' v'] d IH]; simpl; intros Hnd; [intros [] |].
  inversion Hnd as [| x l Hx Hl]; subst.
  intros [[= -> ->] | Hin]; [now rewrite Z.eqb_refl |].
  destruct (k' =? k) eqn:E; [| now apply IH].
  apply Z.eqb_eq in E. subst k'. exfalso. apply Hx.
  apply in_map_iff. now exists (k, c).
Qed.

Section SparseView.
Context {T : PyText}.

(** X20. On every row, each pair [(i, v)] of [get_values()] is what
    [row[i]] returns, and [v] is not default-equal to the default of
    column [i]; an index in range without a pair reads as its default. *)
Theorem get_values_getitem (self : SparseRow.t) :
  reachable self ->
  (forall i v,
      In (i, v) (SparseRow.get_values self) ->
      SparseRow.__getitem__ (IxInt i) self = (OK v, self) /\
      exists isnum d,
        list_get (SparseRow._numbers self) i = OK isnum /\
        list_get (SparseRow._defaults self) i = OK d /\
        default_equal isnum v d = false) /\
  (forall i,
      0 <= i < len (SparseRow._defaults self) ->
      dict_has (SparseRow.get_values self) i = false ->
      SparseRow.__getitem__ (IxInt i) self =
      (list_get (SparseRow._defaults self) i, self)).
Proof.
  intros Hr. split.
  - intros i v Hin. unfold SparseRow.get_values in Hin. split.
    + rewrite getitem_get.
      rewrite <- (get_state i self) at 2.
      pose proof (get_fst i self) as Hf.
      rewrite (dict_get_In _ _ _ (reachable_NoDup self Hr) Hin) in Hf.
      cbv iota in Hf. rewrite <- Hf. now destruct (SparseRow._get i self).
    + pose proof (reachable_converted self Hr i v Hin) as Hc.
      pose proof (convert_fst i v self) as Hfull. rewrite Hc in Hfull.
      apply convert_default_equal in Hfull.
      destruct Hfull as (isnum & d & Hn & Hd & Heq). eauto.
  - intros i Hi Hh. unfold SparseRow.get_values in Hh.
    rewrite getitem_get.
    rewrite <- (get_state i self) at 3.
    pose proof (get_fst i self) as Hf.
    rewrite (dict_get_has _ _ Hh) in Hf.
    cbv iota in Hf. rewrite <- Hf. now destruct (SparseRow._get i self).
Qed.

Lemma from_dense_loop_entries (self : SparseRow.t) (row : list value) :
  forall (k : nat) (last : Z) (d0 : dict) (j : Z) (c : value),
    In (j, c)
       (SparseRow._values
          (snd (SparseRow.from_dense_loop (Z.of_nat k) row last
                  (SparseRow.set_values d0 self)))) ->
    In (j, c) d0 \/
    exists i v,
      j = Z.of_nat (k + i) /\ nth_error row i = Some v /\
      fst (SparseRow._convert j v self) = OK (c, false).
Proof.
  induction row as [| v rest IH]; intros k last d0 j c; [now left |].
  simpl SparseRow.from_dense_loop. unfold bind at 1.
  rewrite convert_set_values.
  destruct (fst (SparseRow._convert (Z.of_nat k) v self))
    as [[c' is_d] |] eqn:E; [| now left].
  unfold bind at 1.
  replace (Z.of_nat k + 1) with (Z.of_nat (S k)) by lia.
  assert (Hshift : (exists i w,
                       j = Z.of_nat (S k + i) /\ nth_error rest i = Some w /\
                       fst (SparseRow._convert j w self) = OK (c, false)) ->
                   exists i w,
                     j = Z.of_nat (k + i) /\
                     nth_error (v :: rest) i = Some w /\
                     fst (SparseRow._convert j w self) = OK (c, false)).
  { intros (i & w & Hj & Hw & Hc). exists (S i), w.
    repeat split; [lia | exact Hw | exact Hc]. }
  destruct is_d; cbn [fst snd negb]; cbv iota.
  - unfold ret. intros Hin.
    destruct (IH (S k) (Z.of_nat k) d0 j c Hin) as [H | H]; auto.
  - unfold SparseRow.store, modify.
    change (SparseRow.set_values ?d (SparseRow.set_values d0 self))
      with (SparseRow.set_values d self).
    intros Hin.
    destruct (IH (S k) (Z.of_nat k) _ j c Hin) as [H | H]; auto.
    simpl in H. apply dict_set_In in H.
    destruct H as [[= -> ->] | H]; auto.
    right. exists 0%nat, v. rewrite Nat.add_0_r.
    repeat split. exact E.
Qed.

(** X21. After [from_dense(row)], whether it returned or raised, every
    stored entry is the converted value of the cell of [row] at its
    index, and that value is not default-equal: nothing of what the row
    held before is left. *)
Theorem from_dense_entries_from_row (row : list value) (self : SparseRow.t)
        (j : Z) (c : value) :
  In (j, c) (SparseRow.get_values (snd (SparseRow.from_dense row self))) ->
  exists i v,
    j = Z.of_nat i /\ nth_error row i = Some v /\
    fst (SparseRow._convert j v self) = OK (c, false).
Proof.
  unfold SparseRow.get_values, SparseRow.from_dense.
  unfold bind at 1, modify at 1. unfold bind at 1.
  pose proof (from_dense_loop_entries self row 0 0 [] j c) as H.
  change (Z.of_nat 0) with 0 in H.
  destruct (SparseRow.from_dense_loop 0 row 0 (SparseRow.set_values [] self))
    as [[last |] s1]; simpl in H.
  - rewrite check_range_state. intros Hin.
    destruct (H Hin) as [[] | Hex]. exact Hex.
  - intros Hin. destruct (H Hin) as [[] | Hex]. exact Hex.
Qed.
End SparseView.

Lemma get_values_getitem_witness :
  let self := abc_row [(2, VNum five)] in
  (forall i v,
      In (i, v) (SparseRow.get_values self) ->
      SparseRow.__getitem__ (T := Literals.text) (IxInt i) self = (OK v, self)
      /\ exists isnum d,
        list_get (SparseRow._numbers self) i = OK isnum /\
        list_get (SparseRow._defaults self) i = OK d /\
        default_equal isnum v d = false) /\
  (forall i,
      0 <= i < len (SparseRow._defaults self) ->
      dict_has (SparseRow.get_values self) i = false ->
      SparseRow.__getitem__ (T := Literals.text) (IxInt i) self =
      (list_get (SparseRow._defaults self) i, self)).
Proof.
  apply (get_values_getitem (T := Literals.text) (abc_row [(2, VNum five)])).
  exact abc_reachable.
Defined.

(** A row of four values over the three columns: [from_dense] raises and
    leaves the entry of the first value. *)
Lemma from_dense_entries_from_row_witness :
  exists i v,
    0 = Z.of_nat i /\
    nth_error [VStr "5.0"; VStr "x"; VNum one; VNum one] i = Some v /\
    fst (SparseRow._convert (T := Literals.text) 0 v
           (abc_row [(1, VStr "z")])) = OK (VNum five, false).
Proof.
  apply (from_dense_entries_from_row (T := Literals.text)
           [VStr "5.0"; VStr "x"; VNum one; VNum one]
           (abc_row [(1, VStr "z")]) 0 (VNum five)).
  left. reflexivity.
Defined.

(** ** Restoring a default by assignment *)

Section RestoreDefault.
Context {T : PyText}.

(** A default that is default-equal to itself converts to itself, and is
    found to be the default. *)
Lemma convert_restorable (i : Z) (d : value) (isnum : bool)
      (self : SparseRow.t) :
  list_get (SparseRow._defaults self) i = OK d ->
  list_get (SparseRow._numbers self) i = OK isnum ->
  restorable isnum d = true ->
  SparseRow._convert i d self = (OK (d, true), self).
Proof.
  intros Hd Hn Hr.
  unfold SparseRow._convert. unfold_monad. rewrite Hd, Hn.
  destruct d as [s | f], isnum; try discriminate Hr; simpl.
  - now rewrite py_eq_str.
  - unfold py_eq. destruct (isnan f) eqn:Ef.
    + destruct f; try discriminate Ef. reflexivity.
    + now rewrite SFeqb_refl.
  - simpl in Hr. apply negb_true_iff in Hr.
    unfold py_eq. now rewrite SFeqb_refl.
Qed.

Lemma dict_has_set (d : dict) (k : Z) (v : value) :
  dict_has (dict_set d k v) k = true.
Proof.
  induction d as [| [k' v'] d IH]; simpl.
  - now rewrite Z.eqb_refl.
  - destruct (k' =? k) eqn:E; simpl; [now rewrite Z.eqb_refl |].
    rewrite E. exact IH.
Qed.

(** The other defaults are not restored: [row[i] = defaults[i]] raises, or
    leaves an entry at [i]. *)
Lemma setitem_default_not_restorable (i : Z) (d : value) (isnum : bool)
      (self : SparseRow.t) :
  list_get (SparseRow._defaults self) i = OK d ->
  list_get (SparseRow._numbers self) i = OK isnum ->
  restorable isnum d = false ->
  fst (SparseRow.__setitem__ (IxInt i) d self) <> OK tt \/
  dict_has
    (SparseRow._values (snd (SparseRow.__setitem__ (IxInt i) d self))) i
  = true.
Proof.
  intros Hd Hn Hr.
  unfold SparseRow.__setitem__, SparseRow._check_range, SparseRow._convert,
    SparseRow.store.
  unfold_monad. simpl.
  destruct (_ || _); simpl; [left; discriminate |].
  rewrite Hd, Hn. simpl.
  destruct d as [s | f], isnum; try discriminate Hr; simpl.
  - destruct (parse_float s) as [g |]; simpl; [| left; discriminate].
    unfold py_eq. destruct (isnan g); simpl; [left; discriminate |].
    right. apply dict_has_set.
  - simpl in Hr. apply negb_false_iff in Hr.
    destruct f; try discriminate Hr.
    unfold py_eq. simpl. right. apply dict_has_set.
Qed.

(** C9, as the code has it. For an index [i] in range whose default is
    default-equal to itself by the rule of [_convert] (a float when the
    column is numeric, and not the float NaN when it is not),
    [row[i] = defaults[i]] succeeds and leaves no entry at [i]; then
    [row[i]] is [defaults[i]], and a second [row[i] = defaults[i]] leaves
    the row as it is. *)
Theorem setitem_default_restores (i : Z) (d : value) (isnum : bool)
        (self : SparseRow.t) :
  0 <= i < len (SparseRow._defaults self) ->
  list_get (SparseRow._defaults self) i = OK d ->
  list_get (SparseRow._numbers self) i = OK isnum ->
  restorable isnum d = true ->
  let self1 := snd (SparseRow.__setitem__ (IxInt i) d self) in
  fst (SparseRow.__setitem__ (IxInt i) d self) = OK tt /\
  dict_has (SparseRow._values self1) i = false /\
  SparseRow.__getitem__ (IxInt i) self1 = (OK d, self1) /\
  SparseRow.__setitem__ (IxInt i) d self1 = (OK tt, self1).
Proof.
  intros Hi Hd Hn Hr.
  assert (Hset : forall vs,
             SparseRow.__setitem__ (IxInt i) d (SparseRow.set_values vs self)
             = (OK tt,
                SparseRow.set_values
                  (filter (fun kv => negb (fst kv =? i)) vs) self)).
  { intros vs. unfold SparseRow.__setitem__.
    unfold bind at 1. unfold lift at 1. simpl int. cbv iota.
    unfold bind at 1.
    rewrite check_range_set_values, check_range_OK by exact Hi.
    simpl fst. cbv iota. unfold bind at 1.
    rewrite convert_set_values, (convert_restorable i d isnum) by assumption.
    cbn [fst snd]. cbv iota. rewrite discard_spec. reflexivity. }
  pose proof (Hset (SparseRow._values self)) as H0.
  rewrite set_values_same in H0. rewrite H0. simpl.
  set (vs1 := filter _ (SparseRow._values self)).
  assert (Hhas : dict_has vs1 i = false) by apply dict_has_filter.
  repeat split.
  - exact Hhas.
  - unfold SparseRow.__getitem__, SparseRow._get. unfold_monad. simpl.
    rewrite dict_get_has by exact Hhas. simpl. now rewrite Hd.
  - rewrite Hset. now rewrite filter_absent by exact Hhas.
Qed.
End RestoreDefault.

(** Column [2] of the scenario, holding [5.0], is set to its default
    [1.0]. *)
Lemma setitem_default_restores_witness :
  let self := abc_row [(0, VNum five); (2, VNum five)] in
  let self1 :=
    snd (SparseRow.__setitem__ (T := Literals.text) (IxInt 2) (VNum one) self)
  in
  fst (SparseRow.__setitem__ (T := Literals.text) (IxInt 2) (VNum one) self)
  = OK tt /\
  dict_has (SparseRow._values self1) 2 = false /\
  SparseRow.__getitem__ (T := Literals.text) (IxInt 2) self1
  = (OK (VNum one), self1) /\
  SparseRow.__setitem__ (T := Literals.text) (IxInt 2) (VNum one) self1
  = (OK tt, self1).
Proof.
  apply (setitem_default_restores (T := Literals.text) 2 (VNum one) true
           (abc_row [(0, VNum five); (2, VNum five)])).
  - unfold len; simpl; lia.
  - reflexivity.
  - reflexivity.
  - reflexivity.
Defined.

(** Without [copy] the text default [0.0] of a numeric column stays a
    text: [row[0] = "0.0"] stores the float [0.0], which is not equal to
    the text, and [row[0]] is then the float, not the default. *)
Lemma setitem_text_default_stores_float :
  let self := SparseRow.mk ["a"] [VStr "0.0"] [true] [] in
  let self1 := SparseRow.mk ["a"] [VStr "0.0"] [true] [(0, VNum pos_zero)] in
  SparseRow.__init__ (T := Literals.text) ["a"] [VStr "0.0"] (Some [true]) []
    false = OK self /\
  list_get (SparseRow._defaults self) 0 = OK (VStr "0.0") /\
  SparseRow.__setitem__ (T := Literals.text) (IxInt 0) (VStr "0.0") self =
  (OK tt, self1) /\
  SparseRow.__getitem__ (T := Literals.text) (IxInt 0) self1 =
  (OK (VNum pos_zero), self1) /\
  VNum pos_zero <> VStr "0.0".
Proof. repeat split. discriminate. Qed.

(** ** Dense rows through the file *)




Section ThroughFile.
Context {T : PyText}.




End ThroughFile.



(** A carriage return in a text comes back from the file as a line feed:
    the text [a\rb] of a text column is decoded as [a\nb]. *)
Example write_load_carriage_return :
  let w := SparseWriter.mk (BaseFile.mk [["a"]; ["x"]] true false)
             ["a"] [VStr "x"] [false] in
  let text := String "a" (String CR "b") in
  exists w' ls decoded,
    SparseWriter.write_dense_rows (T := Literals.text) [[VStr text]] w
    = (OK tt, w') /\
    reread (row_lines w w') = Some ls /\
    SparseLoader.to_list (T := Literals.text) (loader_of w ls) 2
    = Some (OK [decoded]) /\
    RowIter.to_list decoded 2 =
    Some (OK [VStr (String "a" (String LF "b"))]).
Proof. do 3 eexists. repeat split. Qed.

